(** * Workforce monitoring terminal: eligibility gate, history and payroll rules

    A shallow embedding of the deterministic parts of the application:

    - [types.ts]: the enumerations and the two record types;
    - [services/geminiService.ts]: [calculatePayroll], a single call to the
      hosted model wrapped in a try/catch, and the numbered rules of
      [SYSTEM_PROMPT] that the model is instructed to follow;
    - [App.tsx]: the submit handler [handleSubmit] and the purge button.

    Numbers that the source keeps as JavaScript [number]s are rationals
    ([Q]) here; the employee number is an exact integer ([Z]).  The hosted
    model is a parameter of the development: a function from the request to
    either a parsed response object or a thrown error. *)

From Stdlib Require Import String Ascii List ZArith QArith Qminmax Bool Lia Lqa.
Import ListNotations.

Local Open Scope string_scope.
Local Open Scope Z_scope.

(* ------------------------------------------------------------------ *)
(** ** types.ts *)

Inductive Sector : Set := MINING | HARDWARE | SOFTWARE.

(** The string value of each enum member. *)
Definition Sector_value (s : Sector) : string :=
  match s with
  | MINING => "Mining"
  | HARDWARE => "Hardware"
  | SOFTWARE => "Software"
  end.

Module WorkStatus.
Inductive t : Set := FULL_DAY | HALF_DAY | DENIED.
End WorkStatus.

Module RiskLevel.
Inductive t : Set := NONE | LOW | MEDIUM | HIGH | CRITICAL.
End RiskLevel.

Module ActivityLevel.
Inductive t : Set := HIGH | MEDIUM | LOW | NOT_PRESENT.
End ActivityLevel.

Module WorkingStatus.
Inductive t : Set := WORKING | IDLE | ABSENT.
End WorkingStatus.

(** The string values of the enum members.  The types of TypeScript are
    gone at run time: what a record holds under these keys is the string
    that arrived, one of these values or not. *)
Definition WorkStatus_value (v : WorkStatus.t) : string :=
  match v with
  | WorkStatus.FULL_DAY => "full_day"
  | WorkStatus.HALF_DAY => "half_day"
  | WorkStatus.DENIED => "denied"
  end.

Definition RiskLevel_value (v : RiskLevel.t) : string :=
  match v with
  | RiskLevel.NONE => "none"
  | RiskLevel.LOW => "low"
  | RiskLevel.MEDIUM => "medium"
  | RiskLevel.HIGH => "high"
  | RiskLevel.CRITICAL => "critical"
  end.

Definition ActivityLevel_value (v : ActivityLevel.t) : string :=
  match v with
  | ActivityLevel.HIGH => "high"
  | ActivityLevel.MEDIUM => "medium"
  | ActivityLevel.LOW => "low"
  | ActivityLevel.NOT_PRESENT => "not_present"
  end.

Definition WorkingStatus_value (v : WorkingStatus.t) : string :=
  match v with
  | WorkingStatus.WORKING => "working"
  | WorkingStatus.IDLE => "idle"
  | WorkingStatus.ABSENT => "absent"
  end.

Module PayrollInput.
Record t : Set := mk {
  employee_id : string;
  sector : Sector;
  check_in_time : string;
  current_time : string;
  worker_image : option string
}.

Definition with_employee_id (v : string) (i : t) : t :=
  mk v (sector i) (check_in_time i) (current_time i) (worker_image i).

Definition with_worker_image (v : option string) (i : t) : t :=
  mk (employee_id i) (sector i) (check_in_time i) (current_time i) v.
End PayrollInput.

Module PayrollOutput.
Record t : Set := mk {
  employee_id : string;
  sector : string;
  authorized : bool;
  human_detected : bool;
  working_status : string;
  activity_level : string;
  helmet : bool;
  vest : bool;
  efficiency_percentage : Q;
  risk_level : string;
  hours_worked : Q;
  hourly_rate : Q;
  base_salary : Q;
  final_salary : Q;
  work_status : string;
  confidence : Q;
  explanation : string;
  timestamp : string
}.

(** [{...result, timestamp: v}] *)
Definition with_timestamp (v : string) (r : t) : t :=
  mk (employee_id r) (sector r) (authorized r) (human_detected r)
     (working_status r) (activity_level r) (helmet r) (vest r)
     (efficiency_percentage r) (risk_level r) (hours_worked r)
     (hourly_rate r) (base_salary r) (final_salary r) (work_status r)
     (confidence r) (explanation r) v.
End PayrollOutput.

(* ------------------------------------------------------------------ *)
(** ** The identifier pattern [/^EM(\d+)$/] and [parseInt] *)

(** [\d] without the unicode flag: the ten ASCII digits. *)
Definition is_digit (c : ascii) : bool :=
  let n := nat_of_ascii c in (48 <=? n)%nat && (n <=? 57)%nat.

Fixpoint all_digits (s : string) : bool :=
  match s with
  | EmptyString => true
  | String c rest => is_digit c && all_digits rest
  end.

(** [id.match(/^EM(\d+)$/)]: the first capture group when the whole string
    is [EM] followed by one or more digits, [None] for JavaScript's [null].
    Without the [m] flag [$] is the end of the input. *)
Definition match_EM_digits (id : string) : option string :=
  match id with
  | String "E" (String "M" digits) =>
      match digits with
      | EmptyString => None
      | String _ _ => if all_digits digits then Some digits else None
      end
  | _ => None
  end.

Definition digit_value (c : ascii) : Z := Z.of_nat (nat_of_ascii c) - 48.

Fixpoint parseInt_from (acc : Z) (digits : string) : Z :=
  match digits with
  | EmptyString => acc
  | String c rest => parseInt_from (10 * acc + digit_value c) rest
  end.

(** [parseInt] on a string of decimal digits (the only strings it is applied
    to).  JavaScript rounds the value to a double; rounding is monotone and
    both 1 and 100 are doubles, so the comparisons with 1 and 100 made below
    have the same outcome on the exact value. *)
Definition parseInt (digits : string) : Z := parseInt_from 0 digits.

(** The number [N] of an identifier: [parseInt(idMatch[1])]. *)
Definition id_number (id : string) : option Z :=
  option_map parseInt (match_EM_digits id).

(* ------------------------------------------------------------------ *)
(** ** services/geminiService.ts: the call to the hosted model *)

(** What [ai.models.generateContent] followed by [JSON.parse] does on a
    request: it yields the parsed object, taken to carry the fields that the
    response schema requires, or it throws an error with a message. *)
Inductive Reply : Set :=
| Responded (result : PayrollOutput.t)
| Thrown (message : string).

(** Everything outside the component that one submission reads. *)
Record World : Set := mkWorld {
  captureImage : option string;
  generateContent : PayrollInput.t -> Reply;
  now_iso : string
}.

(** [calculatePayroll]: one call, no retry; a thrown error is re-thrown with
    the prefix.  [inr] is the rejected promise. *)
Definition calculatePayroll (w : World) (input : PayrollInput.t)
  : PayrollOutput.t + string :=
  match generateContent w input with
  | Responded result => inl (PayrollOutput.with_timestamp (now_iso w) result)
  | Thrown message => inr ("Supervisor System Error: " ++ message)
  end.

(* ------------------------------------------------------------------ *)
(** ** App.tsx: component state and the submit handler *)

Record AppState : Set := mkApp {
  input : PayrollInput.t;
  history : list PayrollOutput.t;
  isLoading : bool;
  currentResult : option PayrollOutput.t;
  error : option string
}.

Definition setInput (v : PayrollInput.t) (st : AppState) : AppState :=
  mkApp v (history st) (isLoading st) (currentResult st) (error st).
Definition setHistory (v : list PayrollOutput.t) (st : AppState) : AppState :=
  mkApp (input st) v (isLoading st) (currentResult st) (error st).
Definition setIsLoading (v : bool) (st : AppState) : AppState :=
  mkApp (input st) (history st) v (currentResult st) (error st).
Definition setCurrentResult (v : option PayrollOutput.t) (st : AppState)
  : AppState :=
  mkApp (input st) (history st) (isLoading st) v (error st).
Definition setError (v : option string) (st : AppState) : AppState :=
  mkApp (input st) (history st) (isLoading st) (currentResult st) v.

Definition INITIAL_INPUT : PayrollInput.t :=
  PayrollInput.mk "EM001" MINING "09:00" "17:30" None.

Definition initial_state : AppState :=
  mkApp INITIAL_INPUT [] false None None.

(** The four messages that [handleSubmit] builds itself. *)
Definition msg_duplicate (id : string) : string :=
  "ACCESS DENIED: Employee " ++ id ++
  " has already completed verification. Multiple shift entries are prohibited.".
Definition msg_invalid_format : string :=
  "INVALID ID: ID must follow the format 'EM###' (e.g., EM001).".
Definition msg_out_of_range (id : string) : string :=
  "UNAUTHORIZED: ID " ++ id ++
  " is outside the valid workforce range (EM001-EM100).".
Definition msg_rejected (id : string) : string :=
  "SUPERVISOR ALERT: Identity " ++ id ++
  " was rejected by Phoenix AI protocols.".

(** [s || fallback] on strings: the empty string is falsy. *)
Definition or_default (s fallback : string) : string :=
  match s with
  | EmptyString => fallback
  | String _ _ => s
  end.

(** [worker_image || undefined] *)
Definition or_undefined (o : option string) : option string :=
  match o with
  | Some (String c rest) => Some (String c rest)
  | _ => None
  end.

(** [history.some(h => h.employee_id === input.employee_id && h.authorized)] *)
Definition isDuplicate (hist : list PayrollOutput.t) (id : string) : bool :=
  existsb (fun h => (PayrollOutput.employee_id h =? id)%string
                    && PayrollOutput.authorized h) hist.

(** [[result, ...prev].slice(0, 50)] *)
Definition push_capped (result : PayrollOutput.t)
  (prev : list PayrollOutput.t) : list PayrollOutput.t :=
  firstn 50 (result :: prev).

(** [handleSubmit].  The second component is the list of requests sent to the
    hosted model while the handler ran, in order. *)
Definition handleSubmit (w : World) (st0 : AppState)
  : AppState * list PayrollInput.t :=
  let st := setError None (setIsLoading true st0) in
  let id := PayrollInput.employee_id (input st) in
  if isDuplicate (history st) id then
    (setIsLoading false (setError (Some (msg_duplicate id)) st), [])
  else
    match match_EM_digits id with
    | None =>
        (setIsLoading false (setError (Some msg_invalid_format) st), [])
    | Some digits =>
        let idNum := parseInt digits in
        if (idNum <? 1) || (idNum >? 100) then
          (setIsLoading false (setError (Some (msg_out_of_range id)) st), [])
        else
          let worker_image := captureImage w in
          let request :=
            PayrollInput.with_worker_image (or_undefined worker_image)
                                           (input st) in
          match calculatePayroll w request with
          | inl result =>
              if PayrollOutput.authorized result then
                (setIsLoading false
                   (setHistory (push_capped result (history st))
                      (setCurrentResult (Some result) st)),
                 [request])
              else
                (setIsLoading false
                   (setHistory (push_capped result (history st))
                      (setCurrentResult (Some result)
                         (setError (Some (msg_rejected id)) st))),
                 [request])
          | inr message =>
              (setIsLoading false
                 (setError
                    (Some (or_default message
                                      "Phoenix AI Verification failed."))
                    st),
               [request])
          end
    end.

(** The purge button: [setHistory([])]. *)
Definition purge (st : AppState) : AppState := setHistory [] st.

(** One user action on the component. *)
Inductive Event : Type :=
| Submit (w : World)
| EditInput (v : PayrollInput.t)
| Purge
| Reload.

(** Closing and reopening the page: the history was written to local storage
    on every change and is read back on start-up; the rest of the state
    starts afresh. *)
Definition reload (st : AppState) : AppState :=
  mkApp INITIAL_INPUT (history st) false None None.

Definition step (st : AppState) (e : Event) : AppState :=
  match e with
  | Submit w => fst (handleSubmit w st)
  | EditInput v => setInput v st
  | Purge => purge st
  | Reload => reload st
  end.

(** The state after a sequence of actions. *)
Definition run (st : AppState) (es : list Event) : AppState :=
  fold_left step es st.

(** The hosted model answers with the identifier it was asked about. *)
Definition echoes_id (w : World) : Prop :=
  forall req r,
    generateContent w req = Responded r ->
    PayrollOutput.employee_id r = PayrollInput.employee_id req.

Definition event_echoes_id (e : Event) : Prop :=
  match e with
  | Submit w => echoes_id w
  | _ => True
  end.

(** Number of authorized records that carry the identifier [id]. *)
Definition authorized_count (id : string) (hist : list PayrollOutput.t) : nat :=
  length (filter (fun h => (PayrollOutput.employee_id h =? id)%string
                           && PayrollOutput.authorized h) hist).

(* ------------------------------------------------------------------ *)
(** ** SYSTEM_PROMPT: the numbered rules sent to the hosted model

    The rules are text in the source; the definitions below transcribe the
    ones that are arithmetic or a finite table, step by step.  [handleSubmit]
    stores the response of the model as it arrives and does not recompute
    any of them. *)

Module SYSTEM_PROMPT.

(** STEP 1: valid only EM001 to EM100. *)
Definition step1_valid (n : Z) : bool := (1 <=? n) && (n <=? 100).

(** STEP 4: working status mapping. *)
Definition step4_working_status (a : ActivityLevel.t) : WorkingStatus.t :=
  match a with
  | ActivityLevel.HIGH | ActivityLevel.MEDIUM => WorkingStatus.WORKING
  | ActivityLevel.LOW => WorkingStatus.IDLE
  | ActivityLevel.NOT_PRESENT => WorkingStatus.ABSENT
  end.

(** STEP 5: base efficiency. *)
Definition step5_base_efficiency (a : ActivityLevel.t) : Z :=
  match a with
  | ActivityLevel.HIGH => 95
  | ActivityLevel.MEDIUM => 70
  | ActivityLevel.LOW => 30
  | ActivityLevel.NOT_PRESENT => 0
  end.

(** STEP 6: sector safety rules.  Mining requires the helmet, Hardware the
    helmet and the vest, Software nothing. *)
Definition requires_helmet (s : Sector) : bool :=
  match s with MINING | HARDWARE => true | SOFTWARE => false end.
Definition requires_vest (s : Sector) : bool :=
  match s with HARDWARE => true | MINING | SOFTWARE => false end.

Definition missing_required_ppe (s : Sector) (helmet vest : bool) : bool :=
  (requires_helmet s && negb helmet) || (requires_vest s && negb vest).

Definition subtract_if (b : bool) (amount e : Z) : Z :=
  if b then e - amount else e.

(** Final efficiency must be between 0 and 100. *)
Definition into_range (e : Z) : Z := Z.max 0 (Z.min 100 e).

Definition step6_efficiency (s : Sector) (a : ActivityLevel.t)
  (helmet vest unsafe_posture : bool) : Z :=
  let e := step5_base_efficiency a in
  let e := subtract_if (missing_required_ppe s helmet vest) 30 e in
  let e := subtract_if unsafe_posture 20 e in
  into_range e.

(** A time of day as the time input gives it, [HH:MM], in minutes. *)
Definition parse_time (t : string) : option Z :=
  match t with
  | String h1 (String h2 (String ":" (String m1 (String m2 EmptyString)))) =>
      if is_digit h1 && is_digit h2 && is_digit m1 && is_digit m2 then
        Some ((10 * digit_value h1 + digit_value h2) * 60
              + (10 * digit_value m1 + digit_value m2))
      else None
  | _ => None
  end.

(** STEP 8: decimal difference between current_time and check_in_time,
    in hours. *)
Definition step8_hours_worked (check_in_time current_time : string)
  : option Q :=
  match parse_time check_in_time, parse_time current_time with
  | Some t0, Some t1 => Some (Qmake (t1 - t0) 60)
  | _, _ => None
  end.

(** STEP 9: salary calculation. *)
Definition base_rate (s : Sector) : Z :=
  match s with
  | MINING => 50
  | HARDWARE => 45
  | SOFTWARE => 60
  end.

Definition group (n : Z) : Z := (n - 1) / 5.

Definition hourly_rate (s : Sector) (n : Z) : Z :=
  if Z.even (group n) then base_rate s else base_rate s + 5.

Definition base_salary (hours : Q) (rate : Z) : Q :=
  (hours * inject_Z rate)%Q.

(** STEP 10: productivity adjustment, on the whole-number efficiency
    that steps 5 and 6 produce. *)
Definition step10_final_salary (efficiency : Z) (base : Q) : Q :=
  if 90 <=? efficiency then (base + base * (10 # 100))%Q
  else if 50 <=? efficiency then base
  else (base - base * (10 # 100))%Q.

(** STEP 11: work status. *)
Definition step11_work_status (hours : Q) : WorkStatus.t :=
  if Qle_bool 6 hours then WorkStatus.FULL_DAY else WorkStatus.HALF_DAY.

(** The figures the deterministic steps fix. *)
Record Figures : Set := mkFigures {
  authorized : bool;
  efficiency_percentage : Z;
  hours_worked : Q;
  hourly_rate_used : Z;
  base_salary_due : Q;
  final_salary : Q;
  work_status : WorkStatus.t
}.

(** Steps 1 and 8 to 11 in order, given the efficiency of step 6.  When
    step 1 fails the procedure stops: salary 0, efficiency 0, denied; the
    hours and the rate are not computed and stay 0. *)
Definition calculate (id : string) (s : Sector)
  (check_in_time current_time : string) (efficiency : Z)
  : option Figures :=
  match id_number id with
  | None => Some (mkFigures false 0 0 0 0 0 WorkStatus.DENIED)
  | Some n =>
      if step1_valid n then
        match step8_hours_worked check_in_time current_time with
        | None => None
        | Some hours =>
            let rate := hourly_rate s n in
            let base := base_salary hours rate in
            Some (mkFigures true efficiency hours rate base
                            (step10_final_salary efficiency base)
                            (step11_work_status hours))
        end
      else Some (mkFigures false 0 0 0 0 0 WorkStatus.DENIED)
  end.

End SYSTEM_PROMPT.


(* ------------------------------------------------------------------ *)
(** ** App.tsx: the aggregate figures of the admin panel ([stats]) *)

(** [x || fallback] on a number: 0 is the only falsy value a rational has. *)
Definition number_or (x fallback : Q) : Q :=
  if Qeq_bool x 0 then fallback else x.

(** [xs.reduce((acc, curr) => acc + f(curr), 0)] *)
Definition reduce_sum {A : Type} (f : A -> Q) (xs : list A) : Q :=
  fold_left (fun acc curr => (acc + f curr)%Q) xs 0%Q.

Record Stats : Set := mkStats {
  totalSalary : Q;
  avgEfficiency : Q;
  highRiskCount : nat;
  unauthorizedCount : nat;
  sectorData : list (string * Q);
  riskData : list (string * nat)
}.

(** [Object.values(Sector)] *)
Definition Sector_values : list string :=
  map Sector_value [MINING; HARDWARE; SOFTWARE].

(** [h.risk_level === RiskLevel.X] *)
Definition risk_is (level : RiskLevel.t) (h : PayrollOutput.t) : bool :=
  (PayrollOutput.risk_level h =? RiskLevel_value level)%string.

(** The string is the value of one of the five members of [RiskLevel]. *)
Definition known_risk_level (r : string) : bool :=
  existsb (fun level => (r =? RiskLevel_value level)%string)
    [RiskLevel.NONE; RiskLevel.LOW; RiskLevel.MEDIUM; RiskLevel.HIGH;
     RiskLevel.CRITICAL].

(** The value of the [stats] memo for a history; [None] is [null]. *)
Definition stats (hist : list PayrollOutput.t) : option Stats :=
  if (length hist =? 0)%nat then None
  else
    Some (mkStats
      (reduce_sum PayrollOutput.final_salary hist)
      (reduce_sum
         (fun curr => number_or (PayrollOutput.efficiency_percentage curr) 0)
         hist
       / inject_Z (Z.of_nat (length hist)))%Q
      (length (filter (fun h => risk_is RiskLevel.HIGH h
                                || risk_is RiskLevel.CRITICAL h) hist))
      (length (filter (fun h => negb (PayrollOutput.authorized h)) hist))
      (map (fun s =>
              (s, reduce_sum PayrollOutput.final_salary
                    (filter (fun h => (PayrollOutput.sector h =? s)%string)
                            hist)))
           Sector_values)
      [ ("Low/None",
         length (filter (fun h => risk_is RiskLevel.LOW h
                                  || risk_is RiskLevel.NONE h) hist));
        ("Medium", length (filter (risk_is RiskLevel.MEDIUM) hist));
        ("High", length (filter (risk_is RiskLevel.HIGH) hist));
        ("Critical", length (filter (risk_is RiskLevel.CRITICAL) hist)) ]).

(** ** App.tsx: class names chosen from a record *)

(** The fill of the productivity bar in the result panel. *)
Definition efficiency_bar_class (efficiency_percentage : Q) : string :=
  if Qle_bool 90 efficiency_percentage then "bg-emerald-500"
  else if Qle_bool 50 efficiency_percentage then "bg-primary-500"
  else "bg-red-500".

(** The risk badge of a row of the archive table. *)
Definition row_risk_class (risk_level : string) : string :=
  if (risk_level =? RiskLevel_value RiskLevel.CRITICAL)%string
  then "bg-red-600 text-white shadow-sm shadow-red-500/30"
  else if (risk_level =? RiskLevel_value RiskLevel.HIGH)%string
       then "bg-orange-500 text-white shadow-sm shadow-orange-500/30"
  else "bg-slate-100 dark:bg-slate-700 text-slate-500 dark:text-slate-400".

(* ------------------------------------------------------------------ *)
(** ** services/geminiService.ts: the parts of the request *)

Inductive Part : Set :=
| TextPart (text : string)
| InlineDataPart (mimeType data : string).

Definition dquote : ascii := "034"%char.

Definition hex_digit (n : nat) : ascii :=
  match n with
  | 0 => "0" | 1 => "1" | 2 => "2" | 3 => "3" | 4 => "4" | 5 => "5"
  | 6 => "6" | 7 => "7" | 8 => "8" | 9 => "9" | 10 => "a" | 11 => "b"
  | 12 => "c" | 13 => "d" | 14 => "e" | _ => "f"
  end%nat%char.

(** How [JSON.stringify] writes one character of a string: the quote and the
    backslash behind a backslash, the five short escapes, the other control
    characters as [\u00xx] in lower-case hexadecimal, the rest as it is. *)
Definition JSON_escape_char (c : ascii) : string :=
  let n := nat_of_ascii c in
  if (n =? 34)%nat then String "\" (String dquote EmptyString)
  else if (n =? 92)%nat then "\\"
  else if (n =? 8)%nat then "\b"
  else if (n =? 12)%nat then "\f"
  else if (n =? 10)%nat then "\n"
  else if (n =? 13)%nat then "\r"
  else if (n =? 9)%nat then "\t"
  else if (n <? 32)%nat then
    "\u00" ++ String (hex_digit (n / 16)) (String (hex_digit (n mod 16)) EmptyString)
  else String c EmptyString.

Fixpoint JSON_escape (s : string) : string :=
  match s with
  | EmptyString => EmptyString
  | String c rest => JSON_escape_char c ++ JSON_escape rest
  end.

(** [JSON.stringify] of a string. *)
Definition JSON_quote (s : string) : string :=
  String dquote (JSON_escape s ++ String dquote EmptyString).

(** [JSON.stringify({employee_id, sector, check_in_time, current_time})] *)
Definition JSON_stringify_input (input : PayrollInput.t) : string :=
  "{" ++ JSON_quote "employee_id" ++ ":"
      ++ JSON_quote (PayrollInput.employee_id input)
  ++ "," ++ JSON_quote "sector" ++ ":"
      ++ JSON_quote (Sector_value (PayrollInput.sector input))
  ++ "," ++ JSON_quote "check_in_time" ++ ":"
      ++ JSON_quote (PayrollInput.check_in_time input)
  ++ "," ++ JSON_quote "current_time" ++ ":"
      ++ JSON_quote (PayrollInput.current_time input)
  ++ "}".

Definition request_text (input : PayrollInput.t) : string :=
  "INPUT DATA: " ++ JSON_stringify_input input.

(** The [parts] array that [calculatePayroll] hands to [generateContent]:
    the text, then the frame when [input.worker_image] is truthy. *)
Definition request_parts (input : PayrollInput.t) : list Part :=
  TextPart (request_text input)
  :: match PayrollInput.worker_image input with
     | Some (String c rest) => [InlineDataPart "image/jpeg" (String c rest)]
     | _ => []
     end.

(** A reader for what [JSON_quote] writes, from behind the opening quote up
    to the closing one; it returns the string read and the text that
    follows.  It serves to show that quoting loses nothing. *)
Definition hex_value (c : ascii) : option nat :=
  let n := nat_of_ascii c in
  if (48 <=? n)%nat && (n <=? 57)%nat then Some (n - 48)%nat
  else if (97 <=? n)%nat && (n <=? 102)%nat then Some (n - 87)%nat
  else None.

Definition short_escape (e : ascii) : option ascii :=
  let n := nat_of_ascii e in
  if (n =? 34)%nat then Some dquote
  else if (n =? 92)%nat then Some "\"%char
  else if (n =? 98)%nat then Some "008"%char
  else if (n =? 102)%nat then Some "012"%char
  else if (n =? 110)%nat then Some "010"%char
  else if (n =? 114)%nat then Some "013"%char
  else if (n =? 116)%nat then Some "009"%char
  else None.

Fixpoint JSON_read_string (s : string) : option (string * string) :=
  match s with
  | EmptyString => None
  | String c rest =>
      if (c =? dquote)%char then Some (EmptyString, rest)
      else if (c =? "\")%char then
        match rest with
        | EmptyString => None
        | String e rest1 =>
            if (e =? "u")%char then
              match rest1 with
              | String h1 (String h2 (String h3 (String h4 rest2))) =>
                  match hex_value h1, hex_value h2, hex_value h3,
                        hex_value h4, JSON_read_string rest2 with
                  | Some 0%nat, Some 0%nat, Some a, Some b, Some (t, r) =>
                      Some (String (ascii_of_nat (16 * a + b)) t, r)
                  | _, _, _, _, _ => None
                  end
              | _ => None
              end
            else
              match short_escape e, JSON_read_string rest1 with
              | Some c', Some (t, r) => Some (String c' t, r)
              | _, _ => None
              end
        end
      else
        match JSON_read_string rest with
        | Some (t, r) => Some (String c t, r)
        | None => None
        end
  end.

(* ------------------------------------------------------------------ *)
(** ** App.tsx: the captured frame *)

(** [s.split(',')] *)
Fixpoint split_comma (s : string) : list string :=
  match s with
  | EmptyString => [EmptyString]
  | String c rest =>
      if (c =? ",")%char then EmptyString :: split_comma rest
      else
        match split_comma rest with
        | piece :: pieces => String c piece :: pieces
        | [] => [String c EmptyString]
        end
  end.

(** [captureImage], given what [toDataURL] returns when the video, the
    canvas and its 2d context are all there ([None] when one is missing, in
    which case the function returns [null]).  An [undefined] second piece is
    [None] as well: the caller only tests the result for truthiness. *)
Definition captureImage_of (dataURL : option string) : option string :=
  match dataURL with
  | Some url => nth_error (split_comma url) 1
  | None => None
  end.

Fixpoint no_comma (s : string) : bool :=
  match s with
  | EmptyString => true
  | String c rest => negb (c =? ",")%char && no_comma rest
  end.

(* ------------------------------------------------------------------ *)
(** ** App.tsx: the theme and its stored copy *)

(** [isDarkMode ? 'dark' : 'light'], the value written under the key
    [theme]. *)
Definition stored_theme (isDarkMode : bool) : string :=
  if isDarkMode then "dark" else "light".

Record ThemeState : Set := mkTheme {
  isDarkMode : bool;
  theme_item : option string
}.

Definition setIsDarkMode (v : bool) (st : ThemeState) : ThemeState :=
  mkTheme v (theme_item st).

(** The effect on [isDarkMode]: the stored copy follows the state. *)
Definition theme_effect (st : ThemeState) : ThemeState :=
  mkTheme (isDarkMode st) (Some (stored_theme (isDarkMode st))).

(** Start-up with [item] under the key [theme] ([None] for no entry).  The
    first render has [isDarkMode = true]; the first effect reads the entry,
    the theme effect then writes for the first render, and when the entry
    was [light] the state changes and the theme effect runs again. *)
Definition mount_theme (item : option string) : ThemeState :=
  let st := mkTheme true item in
  let theme := theme_item st in
  let st := theme_effect st in
  match theme with
  | Some t =>
      if (t =? "light")%string then theme_effect (setIsDarkMode false st)
      else st
  | None => st
  end.

(** [toggleDarkMode]: [setIsDarkMode(!isDarkMode)], followed by the effect. *)
Definition toggleDarkMode (st : ThemeState) : ThemeState :=
  theme_effect (setIsDarkMode (negb (isDarkMode st)) st).

(* ------------------------------------------------------------------ *)
(** ** Vocabulary of the statements *)

Definition submitted_id (st : AppState) : string :=
  PayrollInput.employee_id (input st).

(** The request that the handler sends from state [st] once the checks have
    passed: the form input with the captured frame. *)
Definition request_of (w : World) (st : AppState) : PayrollInput.t :=
  PayrollInput.with_worker_image (or_undefined (captureImage w)) (input st).

(** The identifier passes the format check and the range check. *)
Definition id_in_range (id : string) : bool :=
  match id_number id with
  | Some n => negb ((n <? 1) || (n >? 100))
  | None => false
  end.

(** [EM] followed by one or more digits. *)
Definition EM_digits (id : string) : Prop :=
  exists digits,
    id = "EM" ++ digits /\ digits <> EmptyString /\ all_digits digits = true.

(** At most one authorized record for every identifier. *)
Definition single_use (hist : list PayrollOutput.t) : Prop :=
  forall id, (authorized_count id hist <= 1)%nat.

(** Every record carries an identifier that passes the two checks. *)
Definition ids_on_record_valid (hist : list PayrollOutput.t) : Prop :=
  forall h, In h hist -> id_in_range (PayrollOutput.employee_id h) = true.

Definition first_char (s : string) : option ascii :=
  match s with
  | EmptyString => None
  | String c _ => Some c
  end.

(** Two messages with different first characters are different. *)
Ltac message_clash H :=
  let H' := fresh in
  inversion H as [H']; apply (f_equal first_char) in H';
  cbn in H'; discriminate H'.

(* ------------------------------------------------------------------ *)
(** ** Sample data for the closed examples *)

Definition sample_result (id : string) (auth : bool) : PayrollOutput.t :=
  PayrollOutput.mk id "Mining" auth true
    (WorkingStatus_value WorkingStatus.WORKING)
    (ActivityLevel_value ActivityLevel.HIGH) true true 95%Q
    (RiskLevel_value RiskLevel.LOW) (17 # 2)%Q 50%Q 425%Q (935 # 2)%Q
    (WorkStatus_value WorkStatus.FULL_DAY) (9 # 10)%Q "on task" EmptyString.

Definition sample_clock : string := "2026-01-01T08:00:00.000Z".

(** A model that answers every request about the identifier it was sent. *)
Definition echoing_world (auth : bool) : World :=
  mkWorld None
    (fun req => Responded (sample_result (PayrollInput.employee_id req) auth))
    sample_clock.

(** A model that gives the same answer whatever it is asked. *)
Definition constant_world (r : Reply) : World :=
  mkWorld None (fun _ => r) sample_clock.

(** A model that answers about EM001 whatever identifier it is sent. *)
Definition stuck_on_EM001 : World :=
  constant_world (Responded (sample_result "EM001" true)).

(** A model that answers about EM999 whatever identifier it is sent. *)
Definition stuck_on_EM999 : World :=
  constant_world (Responded (sample_result "EM999" true)).

(** A model whose call always fails with the same message. *)
Definition failing_world : World := constant_world (Thrown "Failed to fetch").

(** A model that echoes the identifier, with a camera that delivers [frame]. *)
Definition world_with_frame (frame : option string) : World :=
  mkWorld frame
    (fun req => Responded (sample_result (PayrollInput.employee_id req) true))
    sample_clock.

(** The initial form with another identifier typed in. *)
Definition input_for (id : string) : PayrollInput.t :=
  PayrollInput.with_employee_id id INITIAL_INPUT.

(* ------------------------------------------------------------------ *)
(** * Properties *)

(** ** Shape of one run of the handler *)

Lemma or_default_prefixed m fallback :
  or_default ("Supervisor System Error: " ++ m) fallback
  = "Supervisor System Error: " ++ m.
Proof. reflexivity. Qed.

Lemma id_in_range_spec id :
  id_in_range id = true <-> exists n, id_number id = Some n /\ 1 <= n <= 100.
Proof.
  unfold id_in_range. destruct (id_number id) as [n|].
  - rewrite negb_true_iff, orb_false_iff, Z.ltb_ge, Z.gtb_ltb, Z.ltb_ge.
    split.
    + intros [H1 H2]. exists n. split; [reflexivity | lia].
    + intros [m [Hm Hr]]. inversion Hm; subst. lia.
  - split; [discriminate | intros [m [Hm _]]; discriminate].
Qed.

Lemma request_of_employee_id w st :
  PayrollInput.employee_id (request_of w st) = submitted_id st.
Proof. reflexivity. Qed.

Lemma handleSubmit_duplicate w st :
  isDuplicate (history st) (submitted_id st) = true ->
  handleSubmit w st =
  (mkApp (input st) (history st) false (currentResult st)
         (Some (msg_duplicate (submitted_id st))), []).
Proof.
  intros Hdup. unfold handleSubmit, submitted_id in *.
  cbn [setError setIsLoading history input currentResult isLoading error].
  rewrite Hdup. reflexivity.
Qed.

Lemma handleSubmit_invalid_format w st :
  isDuplicate (history st) (submitted_id st) = false ->
  match_EM_digits (submitted_id st) = None ->
  handleSubmit w st =
  (mkApp (input st) (history st) false (currentResult st)
         (Some msg_invalid_format), []).
Proof.
  intros Hdup Hm. unfold handleSubmit, submitted_id in *.
  cbn [setError setIsLoading history input currentResult isLoading error].
  rewrite Hdup, Hm. reflexivity.
Qed.

Lemma handleSubmit_out_of_range w st n :
  isDuplicate (history st) (submitted_id st) = false ->
  id_number (submitted_id st) = Some n ->
  ~ 1 <= n <= 100 ->
  handleSubmit w st =
  (mkApp (input st) (history st) false (currentResult st)
         (Some (msg_out_of_range (submitted_id st))), []).
Proof.
  intros Hdup Hn Hr. unfold handleSubmit, submitted_id, id_number in *.
  cbn [setError setIsLoading history input currentResult isLoading error].
  rewrite Hdup.
  destruct (match_EM_digits (PayrollInput.employee_id (input st)))
    as [digits|]; [|discriminate].
  cbn in Hn. inversion Hn; subst n.
  replace ((parseInt digits <? 1) || (parseInt digits >? 100)) with true.
  - reflexivity.
  - symmetry. rewrite orb_true_iff, Z.ltb_lt, Z.gtb_ltb, Z.ltb_lt. lia.
Qed.

(** Past the three checks the handler sends exactly one request and acts on
    the outcome of [calculatePayroll]. *)
Lemma handleSubmit_checked w st :
  isDuplicate (history st) (submitted_id st) = false ->
  id_in_range (submitted_id st) = true ->
  handleSubmit w st =
  match calculatePayroll w (request_of w st) with
  | inl result =>
      (mkApp (input st) (push_capped result (history st)) false (Some result)
             (if PayrollOutput.authorized result then None
              else Some (msg_rejected (submitted_id st))),
       [request_of w st])
  | inr message =>
      (mkApp (input st) (history st) false (currentResult st)
             (Some (or_default message "Phoenix AI Verification failed.")),
       [request_of w st])
  end.
Proof.
  intros Hdup Hr. unfold handleSubmit, submitted_id, id_in_range, id_number in *.
  cbn [setError setIsLoading history input currentResult isLoading error].
  rewrite Hdup.
  destruct (match_EM_digits (PayrollInput.employee_id (input st)))
    as [digits|]; [|discriminate].
  cbn in Hr. apply negb_true_iff in Hr. rewrite Hr.
  fold (request_of w st).
  destruct (calculatePayroll w (request_of w st)) as [result|message].
  - destruct (PayrollOutput.authorized result); reflexivity.
  - reflexivity.
Qed.

(** When the duplicate test fires or the identifier fails a check, only the
    message and the busy flag are written. *)
Lemma handleSubmit_blocked w st :
  isDuplicate (history st) (submitted_id st) = true
  \/ id_in_range (submitted_id st) = false ->
  exists msg,
    handleSubmit w st =
    (mkApp (input st) (history st) false (currentResult st) (Some msg), []).
Proof.
  intros H.
  destruct (isDuplicate (history st) (submitted_id st)) eqn:Hdup.
  - eexists. apply handleSubmit_duplicate. exact Hdup.
  - destruct H as [H|Hr]; [discriminate H|].
    unfold id_in_range in Hr.
    destruct (id_number (submitted_id st)) as [n|] eqn:Hn.
    + assert (Hout : ~ 1 <= n <= 100).
      { apply negb_false_iff in Hr.
        rewrite orb_true_iff, Z.ltb_lt, Z.gtb_ltb, Z.ltb_lt in Hr. lia. }
      eexists. apply (handleSubmit_out_of_range w st n Hdup Hn Hout).
    + assert (Hnone : match_EM_digits (submitted_id st) = None).
      { unfold id_number in Hn.
        destruct (match_EM_digits (submitted_id st)); [discriminate|].
        reflexivity. }
      eexists. apply (handleSubmit_invalid_format w st Hdup Hnone).
Qed.

(** A run of the handler leaves the history alone, or it has passed the
    duplicate test and pushes the stamped response of the model. *)
Lemma handleSubmit_history_cases w st :
  history (fst (handleSubmit w st)) = history st
  \/ exists r,
       isDuplicate (history st) (submitted_id st) = false
       /\ generateContent w (request_of w st) = Responded r
       /\ history (fst (handleSubmit w st)) =
          push_capped (PayrollOutput.with_timestamp (now_iso w) r)
                      (history st).
Proof.
  destruct (isDuplicate (history st) (submitted_id st)) eqn:Hdup.
  - left. rewrite handleSubmit_duplicate by assumption. reflexivity.
  - destruct (id_in_range (submitted_id st)) eqn:Hr.
    + rewrite handleSubmit_checked by assumption. unfold calculatePayroll.
      destruct (generateContent w (request_of w st)) as [r|m].
      * right. exists r. repeat split.
      * left. reflexivity.
    + left. unfold id_in_range in Hr.
      destruct (id_number (submitted_id st)) as [n|] eqn:Hn.
      * assert (Hout : ~ 1 <= n <= 100).
        { apply negb_false_iff in Hr.
          rewrite orb_true_iff, Z.ltb_lt, Z.gtb_ltb, Z.ltb_lt in Hr. lia. }
        rewrite (handleSubmit_out_of_range w st n Hdup Hn Hout). reflexivity.
      * assert (Hnone : match_EM_digits (submitted_id st) = None).
        { unfold id_number in Hn.
          destruct (match_EM_digits (submitted_id st)); [discriminate|].
          reflexivity. }
        rewrite (handleSubmit_invalid_format w st Hdup Hnone). reflexivity.
Qed.

(** ** The duplicate test and the count of authorized records *)

Lemma isDuplicate_true_iff hist id :
  isDuplicate hist id = true <->
  exists h, In h hist /\ PayrollOutput.employee_id h = id
            /\ PayrollOutput.authorized h = true.
Proof.
  unfold isDuplicate. rewrite existsb_exists. split.
  - intros [h [Hin Hb]]. apply andb_true_iff in Hb. destruct Hb as [He Ha].
    apply String.eqb_eq in He. exists h. auto.
  - intros [h [Hin [He Ha]]]. exists h. split; [assumption|].
    apply andb_true_iff. split; [apply String.eqb_eq|]; assumption.
Qed.

Lemma authorized_count_cons id r hist :
  authorized_count id (r :: hist) =
  ((if (PayrollOutput.employee_id r =? id)%string
       && PayrollOutput.authorized r then 1 else 0)
   + authorized_count id hist)%nat.
Proof.
  unfold authorized_count. cbn [filter].
  destruct ((PayrollOutput.employee_id r =? id)%string
            && PayrollOutput.authorized r); reflexivity.
Qed.

Lemma authorized_count_firstn id k hist :
  (authorized_count id (firstn k hist) <= authorized_count id hist)%nat.
Proof.
  revert k. induction hist as [|r hist IH]; intros k.
  - rewrite firstn_nil. apply Nat.le_refl.
  - destruct k as [|k].
    + cbn [firstn]. unfold authorized_count at 1. cbn. lia.
    + cbn [firstn]. rewrite !authorized_count_cons. specialize (IH k). lia.
Qed.

Lemma not_duplicate_count_zero hist id :
  isDuplicate hist id = false -> authorized_count id hist = 0%nat.
Proof.
  unfold isDuplicate, authorized_count.
  induction hist as [|r hist IH]; [reflexivity|].
  cbn [existsb filter]. intros H. apply orb_false_iff in H.
  destruct H as [Hr Hrest]. rewrite Hr. apply IH. exact Hrest.
Qed.

Lemma single_use_push result hist :
  single_use hist ->
  isDuplicate hist (PayrollOutput.employee_id result) = false ->
  single_use (push_capped result hist).
Proof.
  intros Hinv Hdup id. unfold push_capped.
  eapply Nat.le_trans; [apply authorized_count_firstn|].
  rewrite authorized_count_cons.
  destruct (String.eqb_spec (PayrollOutput.employee_id result) id) as [He|Hne].
  - subst id. rewrite (not_duplicate_count_zero _ _ Hdup).
    destruct (PayrollOutput.authorized result); cbn; lia.
  - cbn. apply Hinv.
Qed.

Lemma handleSubmit_single_use w st :
  echoes_id w ->
  single_use (history st) ->
  single_use (history (fst (handleSubmit w st))).
Proof.
  intros Hecho Hinv.
  destruct (handleSubmit_history_cases w st) as [H|[r [Hdup [Hreply H]]]];
    rewrite H; [exact Hinv|].
  apply single_use_push; [exact Hinv|].
  cbn [PayrollOutput.with_timestamp PayrollOutput.employee_id].
  rewrite (Hecho _ _ Hreply), request_of_employee_id. exact Hdup.
Qed.

Lemma run_single_use es :
  Forall event_echoes_id es ->
  forall st, single_use (history st) -> single_use (history (run st es)).
Proof.
  induction 1 as [|e es He _ IH]; intros st Hinv; [exact Hinv|].
  cbn [run fold_left]. apply IH. destruct e as [w|v| |]; cbn [step].
  - apply handleSubmit_single_use; assumption.
  - exact Hinv.
  - intros id. cbn. lia.
  - exact Hinv.
Qed.

(** C1 (as amended).  A submission whose identifier already has an
    authorized record in the history is rejected with the duplicate-access
    message, sends nothing to the hosted model and leaves the history (and
    the displayed result) as they were.  Consequently, as long as the hosted
    model answers about the identifier it was asked about, every history
    reached from the empty one holds at most one authorized record per
    identifier string. *)
Theorem duplicate_rejected_single_use :
  (forall w st h,
      In h (history st) ->
      PayrollOutput.employee_id h = submitted_id st ->
      PayrollOutput.authorized h = true ->
      error (fst (handleSubmit w st)) = Some (msg_duplicate (submitted_id st))
      /\ snd (handleSubmit w st) = []
      /\ history (fst (handleSubmit w st)) = history st
      /\ currentResult (fst (handleSubmit w st)) = currentResult st)
  /\
  (forall es,
      Forall event_echoes_id es ->
      forall id,
        (authorized_count id (history (run initial_state es)) <= 1)%nat).
Proof.
  split.
  - intros w st h Hin He Ha.
    assert (Hdup : isDuplicate (history st) (submitted_id st) = true)
      by (apply isDuplicate_true_iff; exists h; auto).
    rewrite handleSubmit_duplicate by assumption. cbn. auto.
  - intros es Hes. apply (run_single_use es Hes initial_state).
    intros id. cbn. lia.
Qed.

Lemma echoing_world_echoes auth : echoes_id (echoing_world auth).
Proof. intros req r H. cbn in H. inversion H. reflexivity. Qed.

(** The first part at a history that already holds EM007, and the second at
    two submissions of EM001 in a row. *)
Lemma duplicate_rejected_single_use_witness :
  (error (fst (handleSubmit (echoing_world true)
                 (mkApp (input_for "EM007") [sample_result "EM007" true]
                        false None None)))
   = Some (msg_duplicate "EM007")
   /\ snd (handleSubmit (echoing_world true)
             (mkApp (input_for "EM007") [sample_result "EM007" true]
                    false None None)) = [])
  /\ (authorized_count "EM001"
        (history (run initial_state
                      [Submit (echoing_world true);
                       Submit (echoing_world true)])) <= 1)%nat.
Proof.
  split.
  - pose proof (proj1 duplicate_rejected_single_use (echoing_world true)
        (mkApp (input_for "EM007") [sample_result "EM007" true]
               false None None)
        (sample_result "EM007" true)
        (or_introl eq_refl) eq_refl eq_refl) as H.
    split; [exact (proj1 H) | exact (proj1 (proj2 H))].
  - apply (proj2 duplicate_rejected_single_use).
    repeat constructor; apply echoing_world_echoes.
Defined.

(** C1, counterexample.  Nothing compares the identifier in the response
    with the one submitted: EM001 and then EM002, both answered about EM001,
    leave two authorized EM001 records in the history. *)
Lemma single_use_fails_without_echo :
  ~ (forall es id,
        (authorized_count id (history (run initial_state es)) <= 1)%nat).
Proof.
  intros H.
  specialize (H [Submit stuck_on_EM001;
                 EditInput (input_for "EM002");
                 Submit stuck_on_EM001] "EM001").
  vm_compute in H. lia.
Qed.

(** ** Format and range checks *)

Lemma match_EM_digits_Some id digits :
  match_EM_digits id = Some digits <->
  id = "EM" ++ digits /\ digits <> EmptyString
  /\ all_digits digits = true.
Proof.
  split.
  - unfold match_EM_digits. intros H.
    destruct id as [|c1 id1]; [discriminate|].
    destruct c1 as [[] [] [] [] [] [] [] []]; try discriminate.
    destruct id1 as [|c2 rest]; [discriminate|].
    destruct c2 as [[] [] [] [] [] [] [] []]; try discriminate.
    destruct rest as [|c rest]; [discriminate|].
    destruct (all_digits (String c rest)) eqn:Hd; [|discriminate].
    inversion H; subst digits.
    repeat split; [discriminate|assumption].
  - intros [-> [Hne Hd]]. cbn.
    destruct digits as [|c rest]; [congruence|]. rewrite Hd. reflexivity.
Qed.

Lemma match_EM_digits_None id : match_EM_digits id = None <-> ~ EM_digits id.
Proof.
  split.
  - intros Hnone [digits Hd]. apply match_EM_digits_Some in Hd. congruence.
  - intros Hno. destruct (match_EM_digits id) as [digits|] eqn:Hm;
      [|reflexivity].
    exfalso. apply Hno. exists digits. apply match_EM_digits_Some. exact Hm.
Qed.

(** C2 (as amended).  For a submitted identifier that has no authorized
    record in the history (the duplicate test runs first), the handler fails
    with the invalid-format message exactly when the identifier is not [EM]
    followed by one or more digits, and with the out-of-range message
    exactly when it is and its number lies outside 1..100; in both cases
    nothing is sent to the hosted model and the history is untouched. *)
Theorem format_and_range_errors w st :
  isDuplicate (history st) (submitted_id st) = false ->
  (error (fst (handleSubmit w st)) = Some msg_invalid_format
   <-> ~ EM_digits (submitted_id st))
  /\ (error (fst (handleSubmit w st)) = Some (msg_out_of_range (submitted_id st))
      <-> exists n, id_number (submitted_id st) = Some n /\ ~ 1 <= n <= 100)
  /\ (~ EM_digits (submitted_id st)
      \/ (exists n, id_number (submitted_id st) = Some n /\ ~ 1 <= n <= 100)
      -> snd (handleSubmit w st) = []
         /\ history (fst (handleSubmit w st)) = history st).
Proof.
  intros Hdup.
  destruct (match_EM_digits (submitted_id st)) as [digits|] eqn:Hm.
  - assert (Hpat : EM_digits (submitted_id st))
      by (exists digits; apply match_EM_digits_Some; exact Hm).
    assert (Hn : id_number (submitted_id st) = Some (parseInt digits))
      by (unfold id_number; rewrite Hm; reflexivity).
    destruct (id_in_range (submitted_id st)) eqn:Hr.
    + (* in range: the request goes out *)
      assert (Hin : 1 <= parseInt digits <= 100).
      { apply id_in_range_spec in Hr. destruct Hr as [n [Hn' Hr]].
        rewrite Hn in Hn'. inversion Hn'. lia. }
      assert (Hnot : ~ exists n, id_number (submitted_id st) = Some n
                                 /\ ~ 1 <= n <= 100).
      { intros [n [Hn' Hout]]. rewrite Hn in Hn'. inversion Hn'. lia. }
      rewrite handleSubmit_checked by assumption.
      unfold calculatePayroll.
      destruct (generateContent w (request_of w st)) as [r|m]; cbn [fst snd error].
      * repeat split; try tauto.
        -- intros H. destruct (PayrollOutput.authorized _);
             [discriminate H | message_clash H].
        -- intros H. destruct (PayrollOutput.authorized _);
             [discriminate H | message_clash H].
      * repeat split; try tauto; intros H; message_clash H.
    + (* out of range *)
      assert (Hout : ~ 1 <= parseInt digits <= 100).
      { intros Hin.
        assert (id_in_range (submitted_id st) = true)
          by (apply id_in_range_spec; eauto).
        congruence. }
      rewrite (handleSubmit_out_of_range w st _ Hdup Hn Hout).
      cbn [fst snd error history]. repeat split; eauto.
      * intros H. message_clash H.
      * tauto.
  - assert (Hpat : ~ EM_digits (submitted_id st))
      by (apply match_EM_digits_None; exact Hm).
    rewrite (handleSubmit_invalid_format w st Hdup Hm).
    cbn [fst snd error history]. repeat split; auto.
    + intros H. message_clash H.
    + intros [n [Hn _]]. unfold id_number in Hn. rewrite Hm in Hn.
      discriminate.
Qed.

(** EM999: out of range, rejected before anything is sent. *)
Lemma format_and_range_errors_witness :
  error (fst (handleSubmit (echoing_world true)
                (mkApp (input_for "EM999") [] false None None)))
  = Some (msg_out_of_range "EM999")
  /\ snd (handleSubmit (echoing_world true)
            (mkApp (input_for "EM999") [] false None None)) = [].
Proof.
  pose proof (format_and_range_errors (echoing_world true)
                (mkApp (input_for "EM999") [] false None None) eq_refl)
    as [_ [Hrange Hcalls]].
  assert (Hout : exists n, id_number "EM999" = Some n /\ ~ 1 <= n <= 100)
    by (exists 999; split; [reflexivity | lia]).
  split.
  - apply (proj2 Hrange). exact Hout.
  - apply Hcalls. right. exact Hout.
Defined.

(** C2, counterexample.  Once the history holds an authorized record that
    carries EM999 (here after a response about EM999 to a request for
    EM001), submitting EM999 is answered with the duplicate-access message
    and not with the out-of-range one, although 999 is outside 1..100. *)
Lemma range_error_preempted_by_duplicate :
  ~ (forall w st,
        error (fst (handleSubmit w st))
        = Some (msg_out_of_range (submitted_id st))
        <-> exists n, id_number (submitted_id st) = Some n
                      /\ ~ 1 <= n <= 100).
Proof.
  intros H.
  specialize (H stuck_on_EM999
                (run initial_state [Submit stuck_on_EM999;
                                    EditInput (input_for "EM999")])).
  destruct H as [_ H].
  assert (Hout : exists n,
             id_number (submitted_id
                          (run initial_state
                               [Submit stuck_on_EM999;
                                EditInput (input_for "EM999")])) = Some n
             /\ ~ 1 <= n <= 100)
    by (exists 999; split; [reflexivity | lia]).
  specialize (H Hout). vm_compute in H. discriminate H.
Qed.

(** ** The calculation rules of the prompt *)

Section PromptRules.
Import SYSTEM_PROMPT.

Lemma calculate_valid id n s check_in current eff hours :
  id_number id = Some n ->
  1 <= n <= 100 ->
  step8_hours_worked check_in current = Some hours ->
  calculate id s check_in current eff =
  Some (mkFigures true eff hours (hourly_rate s n)
          (base_salary hours (hourly_rate s n))
          (step10_final_salary eff (base_salary hours (hourly_rate s n)))
          (step11_work_status hours)).
Proof.
  intros Hn Hr Hh. unfold calculate. rewrite Hn.
  replace (step1_valid n) with true
    by (symmetry; unfold step1_valid; apply andb_true_iff;
        rewrite !Z.leb_le; lia).
  rewrite Hh. reflexivity.
Qed.


Lemma hourly_rate_by_parity s n :
  (Z.even (group n) = true -> hourly_rate s n = base_rate s)
  /\ (Z.odd (group n) = true -> hourly_rate s n = base_rate s + 5).
Proof.
  unfold hourly_rate. rewrite <- Z.negb_even.
  destruct (Z.even (group n)); split; intros H;
    try reflexivity; discriminate H.
Qed.

End PromptRules.

(** C3.  For an identifier [EM] + digits with number [n] in 1..100 and any
    sector, the rules give the hourly rate from [group = floor((n-1)/5)]:
    the sector's base rate (Mining 50, Hardware 45, Software 60) when the
    group is even, the base rate plus 5 when it is odd, and
    [base_salary = hours_worked * hourly_rate].  EM023 in Mining from 09:00
    to 17:30 gives 8.5 hours, group 4, rate 50 and base salary 425. *)
Theorem hourly_rate_and_base_salary :
  (forall id n s check_in current eff hours,
      id_number id = Some n ->
      1 <= n <= 100 ->
      SYSTEM_PROMPT.step8_hours_worked check_in current = Some hours ->
      exists f,
        SYSTEM_PROMPT.calculate id s check_in current eff = Some f
        /\ SYSTEM_PROMPT.hours_worked f = hours
        /\ (Z.even ((n - 1) / 5) = true ->
            SYSTEM_PROMPT.hourly_rate_used f =
            match s with MINING => 50 | HARDWARE => 45 | SOFTWARE => 60 end)
        /\ (Z.odd ((n - 1) / 5) = true ->
            SYSTEM_PROMPT.hourly_rate_used f =
            match s with MINING => 55 | HARDWARE => 50 | SOFTWARE => 65 end)
        /\ (SYSTEM_PROMPT.base_salary_due f ==
            hours * inject_Z (SYSTEM_PROMPT.hourly_rate_used f))%Q)
  /\
  (forall eff,
      exists f,
        SYSTEM_PROMPT.calculate "EM023" MINING "09:00" "17:30" eff = Some f
        /\ id_number "EM023" = Some 23
        /\ SYSTEM_PROMPT.group 23 = 4
        /\ (SYSTEM_PROMPT.hours_worked f == 17 # 2)%Q
        /\ SYSTEM_PROMPT.hourly_rate_used f = 50
        /\ (SYSTEM_PROMPT.base_salary_due f == 425)%Q).
Proof.
  split.
  - intros id n s check_in current eff hours Hn Hr Hh.
    eexists. split; [apply (calculate_valid id n s _ _ eff hours Hn Hr Hh)|].
    cbn [SYSTEM_PROMPT.hours_worked SYSTEM_PROMPT.hourly_rate_used
         SYSTEM_PROMPT.base_salary_due].
    destruct (hourly_rate_by_parity s n) as [He Ho].
    unfold SYSTEM_PROMPT.group in He, Ho.
    split; [reflexivity|]. split; [|split].
    + intros H. rewrite (He H). destruct s; reflexivity.
    + intros H. rewrite (Ho H). destruct s; reflexivity.
    + unfold SYSTEM_PROMPT.base_salary. reflexivity.
  - intros eff. eexists. split; [reflexivity|].
    cbn. repeat split.
Qed.

(** EM023, Mining, 09:00 to 17:30: the general statement at the example. *)
Lemma hourly_rate_and_base_salary_witness :
  exists f,
    SYSTEM_PROMPT.calculate "EM023" MINING "09:00" "17:30" 92 = Some f
    /\ SYSTEM_PROMPT.hourly_rate_used f = 50
    /\ (SYSTEM_PROMPT.base_salary_due f == 425)%Q.
Proof.
  destruct (proj1 hourly_rate_and_base_salary "EM023" 23 MINING
              "09:00" "17:30" 92 (510 # 60)%Q eq_refl
              (conj (proj1 (Z.leb_le 1 23) eq_refl)
                    (proj1 (Z.leb_le 23 100) eq_refl))
              eq_refl)
    as [f [Hf [Hh [He [_ Hb]]]]].
  exists f. split; [exact Hf|]. split; [exact (He eq_refl)|].
  rewrite Hb, (He eq_refl). reflexivity.
Defined.

Lemma Qle_bool_inject_Z a b : Qle_bool (inject_Z a) (inject_Z b) = (a <=? b).
Proof. unfold Qle_bool. cbn. rewrite !Z.mul_1_r. reflexivity. Qed.


Lemma step11_half_day hours :
  (hours < 6)%Q ->
  SYSTEM_PROMPT.step11_work_status hours = WorkStatus.HALF_DAY.
Proof.
  intros H. unfold SYSTEM_PROMPT.step11_work_status.
  destruct (Qle_bool 6 hours) eqn:Hb; [|reflexivity].
  apply Qle_bool_iff in Hb. exfalso. exact (Qlt_not_le _ _ H Hb).
Qed.






(** C5.  For every sector, activity level, pair of PPE flags and posture
    judgement, the efficiency is the base score of the activity (95, 70, 30,
    0) minus 30 when a required item is missing (helmet for Mining, helmet
    or vest for Hardware, nothing for Software) and minus 20 when the
    posture is unsafe, brought into 0..100. *)
Theorem efficiency_formula_and_bounds s a helmet vest unsafe_posture :
  SYSTEM_PROMPT.step6_efficiency s a helmet vest unsafe_posture =
  Z.max 0
    (Z.min 100
       (match a with
        | ActivityLevel.HIGH => 95
        | ActivityLevel.MEDIUM => 70
        | ActivityLevel.LOW => 30
        | ActivityLevel.NOT_PRESENT => 0
        end
        - (if match s with
              | MINING => negb helmet
              | HARDWARE => negb helmet || negb vest
              | SOFTWARE => false
              end then 30 else 0)
        - (if unsafe_posture then 20 else 0)))
  /\ 0 <= SYSTEM_PROMPT.step6_efficiency s a helmet vest unsafe_posture <= 100.
Proof.
  split.
  - destruct s, a, helmet, vest, unsafe_posture; reflexivity.
  - unfold SYSTEM_PROMPT.step6_efficiency, SYSTEM_PROMPT.into_range. lia.
Qed.

(** ** The capped history *)

Lemma push_capped_cons result prev :
  push_capped result prev = result :: firstn 49 prev.
Proof. reflexivity. Qed.

Lemma push_capped_length result prev :
  (length (push_capped result prev) <= 50)%nat.
Proof. unfold push_capped. apply firstn_le_length. Qed.

Lemma push_capped_below_cap result prev :
  (length prev < 50)%nat -> push_capped result prev = result :: prev.
Proof.
  intros H. rewrite push_capped_cons. f_equal. apply firstn_all2. lia.
Qed.

Lemma push_capped_at_cap result prev :
  length prev = 50%nat ->
  exists kept oldest,
    prev = (kept ++ [oldest])%list
    /\ push_capped result prev = result :: kept.
Proof.
  intros H. rewrite push_capped_cons.
  pose proof (firstn_skipn 49 prev) as Hsplit.
  pose proof (length_skipn 49 prev) as Hlen. rewrite H in Hlen.
  destruct (skipn 49 prev) as [|oldest [|x rest]] eqn:Hs;
    cbn in Hlen; try discriminate Hlen.
  exists (firstn 49 prev), oldest. split; [symmetry; exact Hsplit | reflexivity].
Qed.

Lemma run_history_length es :
  forall st, (length (history st) <= 50)%nat ->
             (length (history (run st es)) <= 50)%nat.
Proof.
  induction es as [|e es IH]; intros st Hlen; [exact Hlen|].
  cbn [run fold_left]. apply IH. destruct e as [w|v| |]; cbn [step].
  - destruct (handleSubmit_history_cases w st) as [H|[r [_ [_ H]]]];
      rewrite H.
    + exact Hlen.
    + apply push_capped_length.
  - exact Hlen.
  - cbn. lia.
  - exact Hlen.
Qed.

(** C7.  When a submission gets a response record, the new history is that
    record in front of the previous records, the whole cut to 50 entries:
    below the cap nothing is lost, at the cap exactly the oldest record
    goes, and no history reached from the empty one is longer than 50. *)
Theorem history_is_capped_at_50 :
  (forall w st r,
      isDuplicate (history st) (submitted_id st) = false ->
      id_in_range (submitted_id st) = true ->
      generateContent w (request_of w st) = Responded r ->
      history (fst (handleSubmit w st)) =
      firstn 50 (PayrollOutput.with_timestamp (now_iso w) r :: history st)
      /\ (length (history (fst (handleSubmit w st))) <= 50)%nat
      /\ ((length (history st) < 50)%nat ->
          history (fst (handleSubmit w st)) =
          PayrollOutput.with_timestamp (now_iso w) r :: history st)
      /\ (length (history st) = 50%nat ->
          exists kept oldest,
            history st = (kept ++ [oldest])%list
            /\ history (fst (handleSubmit w st)) =
               PayrollOutput.with_timestamp (now_iso w) r :: kept))
  /\
  (forall es, (length (history (run initial_state es)) <= 50)%nat).
Proof.
  split.
  - intros w st r Hdup Hr Hreply.
    rewrite handleSubmit_checked by assumption.
    unfold calculatePayroll. rewrite Hreply. cbn [fst history].
    split; [reflexivity|]. split; [apply push_capped_length|]. split.
    + apply push_capped_below_cap.
    + apply push_capped_at_cap.
  - intros es. apply run_history_length. cbn. lia.
Qed.

(** EM001 submitted on the empty history with a model that answers. *)
Lemma history_is_capped_at_50_witness :
  history (fst (handleSubmit (echoing_world true) initial_state)) =
  [PayrollOutput.with_timestamp sample_clock (sample_result "EM001" true)].
Proof.
  exact (proj1 (proj1 history_is_capped_at_50 (echoing_world true)
                  initial_state (sample_result "EM001" true)
                  eq_refl eq_refl eq_refl)).
Defined.

(** C8.  When the call to the hosted model throws, the handler shows one
    message (the error of the service with its prefix), has sent exactly one
    request, leaves the history, the displayed result and the form input as
    they were and clears the busy flag; submitting again from the resulting
    state passes the checks again and records the response it then gets. *)
Theorem service_failure_is_atomic w st message :
  isDuplicate (history st) (submitted_id st) = false ->
  id_in_range (submitted_id st) = true ->
  generateContent w (request_of w st) = Thrown message ->
  error (fst (handleSubmit w st))
  = Some ("Supervisor System Error: " ++ message)
  /\ snd (handleSubmit w st) = [request_of w st]
  /\ history (fst (handleSubmit w st)) = history st
  /\ currentResult (fst (handleSubmit w st)) = currentResult st
  /\ input (fst (handleSubmit w st)) = input st
  /\ isLoading (fst (handleSubmit w st)) = false
  /\ (forall w2 r,
         generateContent w2 (request_of w2 st) = Responded r ->
         snd (handleSubmit w2 (fst (handleSubmit w st))) = [request_of w2 st]
         /\ history (fst (handleSubmit w2 (fst (handleSubmit w st)))) =
            push_capped (PayrollOutput.with_timestamp (now_iso w2) r)
                        (history st)
         /\ currentResult (fst (handleSubmit w2 (fst (handleSubmit w st)))) =
            Some (PayrollOutput.with_timestamp (now_iso w2) r)).
Proof.
  intros Hdup Hr Hreply.
  rewrite (handleSubmit_checked w st Hdup Hr).
  unfold calculatePayroll. rewrite Hreply.
  cbn [fst snd error history currentResult input isLoading].
  rewrite or_default_prefixed.
  repeat (split; [reflexivity|]).
  intros w2 r Hreply2.
  rewrite handleSubmit_checked by assumption.
  unfold calculatePayroll, request_of in *.
  cbn [input history] in *. rewrite Hreply2.
  repeat split.
Qed.

Lemma service_failure_is_atomic_witness :
  error (fst (handleSubmit failing_world initial_state))
  = Some "Supervisor System Error: Failed to fetch"
  /\ snd (handleSubmit failing_world initial_state)
     = [request_of failing_world initial_state]
  /\ history (fst (handleSubmit failing_world initial_state)) = [].
Proof.
  pose proof (service_failure_is_atomic failing_world initial_state
                "Failed to fetch" eq_refl eq_refl eq_refl)
    as [He [Hc [Hh _]]].
  split; [exact He|]. split; [exact Hc | exact Hh].
Defined.

(** C9.  When the hosted model answers with [authorized = false], the
    handler shows the rejection message and still puts the record in front
    of the history (cut to 50) and makes it the displayed result, the same
    two updates as for an authorized record, for which no message is
    shown. *)
Theorem unauthorized_record_is_kept w st r :
  isDuplicate (history st) (submitted_id st) = false ->
  id_in_range (submitted_id st) = true ->
  generateContent w (request_of w st) = Responded r ->
  history (fst (handleSubmit w st)) =
  firstn 50 (PayrollOutput.with_timestamp (now_iso w) r :: history st)
  /\ currentResult (fst (handleSubmit w st)) =
     Some (PayrollOutput.with_timestamp (now_iso w) r)
  /\ (PayrollOutput.authorized r = false ->
      error (fst (handleSubmit w st))
      = Some ("SUPERVISOR ALERT: Identity " ++ submitted_id st
              ++ " was rejected by Phoenix AI protocols."))
  /\ (PayrollOutput.authorized r = true ->
      error (fst (handleSubmit w st)) = None).
Proof.
  intros Hdup Hr Hreply.
  rewrite handleSubmit_checked by assumption.
  unfold calculatePayroll. rewrite Hreply.
  cbn [fst history currentResult error PayrollOutput.with_timestamp
       PayrollOutput.authorized].
  split; [reflexivity|]. split; [reflexivity|].
  split; intros Ha; rewrite Ha; reflexivity.
Qed.

Lemma unauthorized_record_is_kept_witness :
  history (fst (handleSubmit (echoing_world false) initial_state)) =
  [PayrollOutput.with_timestamp sample_clock (sample_result "EM001" false)]
  /\ error (fst (handleSubmit (echoing_world false) initial_state))
     = Some "SUPERVISOR ALERT: Identity EM001 was rejected by Phoenix AI protocols.".
Proof.
  pose proof (unauthorized_record_is_kept (echoing_world false) initial_state
                (sample_result "EM001" false) eq_refl eq_refl eq_refl)
    as [Hh [_ [He _]]].
  split; [exact Hh | exact (He eq_refl)].
Defined.

(** C10.  EM1 and EM001 are different strings with the same number 1; both
    pass the format and range checks and the rules give both the same group,
    rate and figures; yet once EM1 is recorded as authorized, a submission
    of EM001 is not taken for a duplicate: the request goes out, whatever
    the model then answers. *)
Theorem same_number_distinct_strings_not_duplicate :
  exists id1 id2 : string,
    id1 <> id2
    /\ id_number id1 = Some 1 /\ id_number id2 = Some 1
    /\ id_in_range id1 = true /\ id_in_range id2 = true
    /\ (forall s check_in current eff,
           SYSTEM_PROMPT.calculate id1 s check_in current eff =
           SYSTEM_PROMPT.calculate id2 s check_in current eff)
    /\ (forall s, SYSTEM_PROMPT.hourly_rate s 1 = SYSTEM_PROMPT.base_rate s)
    /\ isDuplicate
         (history (run initial_state
                       [EditInput (input_for id1);
                        Submit (echoing_world true)])) id1 = true
    /\ (forall w,
           snd (handleSubmit w
                  (run initial_state
                       [EditInput (input_for id1);
                        Submit (echoing_world true);
                        EditInput (input_for id2)]))
           = [PayrollInput.with_worker_image (or_undefined (captureImage w))
                                             (input_for id2)]
           /\ error (fst (handleSubmit w
                            (run initial_state
                                 [EditInput (input_for id1);
                                  Submit (echoing_world true);
                                  EditInput (input_for id2)])))
              <> Some (msg_duplicate id2)).
Proof.
  exists "EM1", "EM001".
  split; [discriminate|].
  do 4 (split; [reflexivity|]).
  split; [reflexivity|]. split; [reflexivity|]. split; [reflexivity|].
  intros w.
  assert (Hst : run initial_state
                    [EditInput (input_for "EM1");
                     Submit (echoing_world true);
                     EditInput (input_for "EM001")]
                = mkApp (input_for "EM001")
                        [PayrollOutput.with_timestamp sample_clock
                           (sample_result "EM1" true)]
                        false
                        (Some (PayrollOutput.with_timestamp sample_clock
                                 (sample_result "EM1" true)))
                        None) by reflexivity.
  rewrite Hst.
  rewrite handleSubmit_checked by reflexivity.
  unfold calculatePayroll.
  destruct (generateContent w _) as [r|m]; cbn [fst snd error].
  - split; [reflexivity|].
    destruct (PayrollOutput.authorized _);
      [discriminate | intros H; message_clash H].
  - split; [reflexivity|]. intros H; message_clash H.
Qed.

(* ------------------------------------------------------------------ *)
(** * Further properties of the submit handler *)

Lemma handleSubmit_checked_calls w st :
  isDuplicate (history st) (submitted_id st) = false ->
  id_in_range (submitted_id st) = true ->
  snd (handleSubmit w st) = [request_of w st].
Proof.
  intros Hdup Hr. rewrite handleSubmit_checked by assumption.
  destruct (calculatePayroll w (request_of w st)); reflexivity.
Qed.

(** X1.  One run of the handler sends at most one request; it sends one
    exactly when the identifier is no duplicate and passes the format and
    range checks; and a request that is sent carries the submitted
    identifier, which is then [EM] + digits with a number in 1..100. *)
Theorem request_sent_iff_checks_pass w st :
  (snd (handleSubmit w st) = [] \/ snd (handleSubmit w st) = [request_of w st])
  /\ (snd (handleSubmit w st) = [request_of w st]
      <-> isDuplicate (history st) (submitted_id st) = false
          /\ id_in_range (submitted_id st) = true)
  /\ (forall req,
         In req (snd (handleSubmit w st)) ->
         PayrollInput.employee_id req = submitted_id st
         /\ EM_digits (PayrollInput.employee_id req)
         /\ exists n, id_number (PayrollInput.employee_id req) = Some n
                      /\ 1 <= n <= 100).
Proof.
  destruct (isDuplicate (history st) (submitted_id st)) eqn:Hdup;
    [|destruct (id_in_range (submitted_id st)) eqn:Hr].
  - destruct (handleSubmit_blocked w st (or_introl Hdup)) as [msg ->].
    cbn [snd]. split; [left; reflexivity|]. split.
    + split; [discriminate | intros [H _]; discriminate H].
    + intros req [].
  - rewrite (handleSubmit_checked_calls w st Hdup Hr).
    split; [right; reflexivity|]. split; [tauto|].
    intros req [<-|[]]. rewrite request_of_employee_id.
    split; [reflexivity|].
    apply id_in_range_spec in Hr. destruct Hr as [n [Hn Hrange]].
    split; [|exists n; auto].
    unfold id_number in Hn.
    destruct (match_EM_digits (submitted_id st)) as [d|] eqn:Hm;
      [|discriminate].
    exists d. apply match_EM_digits_Some. exact Hm.
  - destruct (handleSubmit_blocked w st (or_intror Hr)) as [msg ->].
    cbn [snd]. split; [left; reflexivity|]. split.
    + split; [discriminate | intros [_ H]; discriminate H].
    + intros req [].
Qed.

Lemma request_sent_iff_checks_pass_witness :
  PayrollInput.employee_id (request_of (echoing_world true) initial_state)
  = "EM001"
  /\ exists n, id_number "EM001" = Some n /\ 1 <= n <= 100.
Proof.
  pose proof (proj2 (proj2 (request_sent_iff_checks_pass
                              (echoing_world true) initial_state))
                (request_of (echoing_world true) initial_state)
                (or_introl eq_refl)) as [He [_ Hn]].
  split; [exact He | exact Hn].
Defined.

(** X2.  After a run of the handler no message is showing exactly when the
    checks passed and the hosted model answered with an authorized record;
    whatever was showing before plays no part. *)
Theorem no_error_iff_authorized_response w st :
  error (fst (handleSubmit w st)) = None
  <-> isDuplicate (history st) (submitted_id st) = false
      /\ id_in_range (submitted_id st) = true
      /\ exists r, generateContent w (request_of w st) = Responded r
                   /\ PayrollOutput.authorized r = true.
Proof.
  destruct (isDuplicate (history st) (submitted_id st)) eqn:Hdup;
    [|destruct (id_in_range (submitted_id st)) eqn:Hr].
  - destruct (handleSubmit_blocked w st (or_introl Hdup)) as [msg ->].
    cbn. split; [discriminate | intros [H _]; discriminate H].
  - rewrite handleSubmit_checked by assumption. unfold calculatePayroll.
    destruct (generateContent w (request_of w st)) as [r|m];
      cbn [fst error PayrollOutput.with_timestamp PayrollOutput.authorized].
    + destruct (PayrollOutput.authorized r) eqn:Ha.
      * split; [|reflexivity]. intros _. repeat split. exists r. auto.
      * split; [discriminate|].
        intros [_ [_ [r' [Hr' Ha']]]]. inversion Hr'; subst r'. congruence.
    + split; [discriminate|]. intros [_ [_ [r' [Hr' _]]]]. discriminate Hr'.
  - destruct (handleSubmit_blocked w st (or_intror Hr)) as [msg ->].
    cbn. split; [discriminate | intros [_ [H _]]; discriminate H].
Qed.

(** X3.  Every run of the handler ends with the busy flag cleared and the
    form input as it was, and it either leaves both the history and the
    displayed result alone or makes the stamped response of the model both
    the displayed result and the first record of the history. *)
Theorem handler_updates_are_all_or_nothing w st :
  isLoading (fst (handleSubmit w st)) = false
  /\ input (fst (handleSubmit w st)) = input st
  /\ ((history (fst (handleSubmit w st)) = history st
       /\ currentResult (fst (handleSubmit w st)) = currentResult st
       /\ error (fst (handleSubmit w st)) <> None)
      \/ exists r,
           generateContent w (request_of w st) = Responded r
           /\ currentResult (fst (handleSubmit w st)) =
              Some (PayrollOutput.with_timestamp (now_iso w) r)
           /\ hd_error (history (fst (handleSubmit w st))) =
              currentResult (fst (handleSubmit w st))
           /\ tl (history (fst (handleSubmit w st))) = firstn 49 (history st)).
Proof.
  destruct (isDuplicate (history st) (submitted_id st)) eqn:Hdup;
    [|destruct (id_in_range (submitted_id st)) eqn:Hr].
  - destruct (handleSubmit_blocked w st (or_introl Hdup)) as [msg ->].
    cbn. repeat split. left. repeat split. discriminate.
  - rewrite handleSubmit_checked by assumption. unfold calculatePayroll.
    destruct (generateContent w (request_of w st)) as [r|m];
      cbn [fst isLoading input history currentResult error].
    + repeat split. right. exists r. repeat split.
    + repeat split. left. repeat split. discriminate.
  - destruct (handleSubmit_blocked w st (or_intror Hr)) as [msg ->].
    cbn. repeat split. left. repeat split. discriminate.
Qed.

Lemma isDuplicate_cons r hist id :
  isDuplicate (r :: hist) id =
  ((PayrollOutput.employee_id r =? id)%string && PayrollOutput.authorized r)
  || isDuplicate hist id.
Proof. reflexivity. Qed.

Lemma isDuplicate_firstn_false k hist id :
  isDuplicate hist id = false -> isDuplicate (firstn k hist) id = false.
Proof.
  revert k. induction hist as [|r hist IH]; intros k H.
  - rewrite firstn_nil. reflexivity.
  - destruct k as [|k]; [reflexivity|].
    cbn [firstn]. rewrite isDuplicate_cons in *.
    apply orb_false_iff in H. destruct H as [Hr Hrest].
    rewrite Hr, (IH k Hrest). reflexivity.
Qed.

(** X4.  Once a submission has been answered with an authorized record that
    carries the submitted identifier, the next submission of that identifier
    is rejected as a duplicate without a request, whatever the sector and
    the times now in the form and whatever the hosted model would say. *)
Theorem authorized_once_then_blocked w w' st r v :
  isDuplicate (history st) (submitted_id st) = false ->
  id_in_range (submitted_id st) = true ->
  generateContent w (request_of w st) = Responded r ->
  PayrollOutput.authorized r = true ->
  PayrollOutput.employee_id r = submitted_id st ->
  PayrollInput.employee_id v = submitted_id st ->
  error (fst (handleSubmit w' (setInput v (fst (handleSubmit w st)))))
  = Some (msg_duplicate (submitted_id st))
  /\ snd (handleSubmit w' (setInput v (fst (handleSubmit w st)))) = []
  /\ history (fst (handleSubmit w' (setInput v (fst (handleSubmit w st)))))
     = history (fst (handleSubmit w st)).
Proof.
  intros Hdup Hr Hreply Ha He Hv.
  rewrite (handleSubmit_checked w st Hdup Hr).
  unfold calculatePayroll. rewrite Hreply. cbn [fst].
  set (st1 := setInput v _).
  assert (Hid : submitted_id st1 = submitted_id st) by exact Hv.
  assert (Hdup1 : isDuplicate (history st1) (submitted_id st1) = true).
  { rewrite Hid. subst st1. cbn [setInput history].
    rewrite push_capped_cons, isDuplicate_cons.
    cbn [PayrollOutput.with_timestamp PayrollOutput.employee_id
         PayrollOutput.authorized].
    rewrite He, Ha, String.eqb_refl. reflexivity. }
  rewrite (handleSubmit_duplicate w' st1 Hdup1), Hid. cbn [fst snd error history].
  repeat split.
Qed.

Lemma authorized_once_then_blocked_witness :
  error (fst (handleSubmit failing_world
                (setInput (input_for "EM001")
                   (fst (handleSubmit (echoing_world true) initial_state)))))
  = Some (msg_duplicate "EM001").
Proof.
  exact (proj1 (authorized_once_then_blocked (echoing_world true)
                  failing_world initial_state (sample_result "EM001" true)
                  (input_for "EM001")
                  eq_refl eq_refl eq_refl eq_refl eq_refl eq_refl)).
Defined.

(** X5.  A response with [authorized = false] does not use up the
    identifier: the record is kept, and submitting again from the resulting
    state sends a request again. *)
Theorem unauthorized_record_does_not_block w w' st r :
  isDuplicate (history st) (submitted_id st) = false ->
  id_in_range (submitted_id st) = true ->
  generateContent w (request_of w st) = Responded r ->
  PayrollOutput.authorized r = false ->
  isDuplicate (history (fst (handleSubmit w st))) (submitted_id st) = false
  /\ snd (handleSubmit w' (fst (handleSubmit w st))) = [request_of w' st].
Proof.
  intros Hdup Hr Hreply Ha.
  assert (Hdup1 : isDuplicate (history (fst (handleSubmit w st)))
                              (submitted_id st) = false).
  { rewrite (handleSubmit_checked w st Hdup Hr).
    unfold calculatePayroll. rewrite Hreply. cbn [fst history].
    rewrite push_capped_cons, isDuplicate_cons.
    cbn [PayrollOutput.with_timestamp PayrollOutput.authorized].
    rewrite Ha, andb_false_r. cbn [orb].
    apply isDuplicate_firstn_false. exact Hdup. }
  split; [exact Hdup1|].
  assert (Hin : input (fst (handleSubmit w st)) = input st).
  { rewrite (handleSubmit_checked w st Hdup Hr).
    destruct (calculatePayroll w (request_of w st)); reflexivity. }
  rewrite handleSubmit_checked_calls.
  - unfold request_of. rewrite Hin. reflexivity.
  - unfold submitted_id in *. rewrite Hin. exact Hdup1.
  - unfold submitted_id in *. rewrite Hin. exact Hr.
Qed.

Lemma unauthorized_record_does_not_block_witness :
  snd (handleSubmit (echoing_world true)
         (fst (handleSubmit (echoing_world false) initial_state)))
  = [request_of (echoing_world true) initial_state].
Proof.
  exact (proj2 (unauthorized_record_does_not_block (echoing_world false)
                  (echoing_world true) initial_state
                  (sample_result "EM001" false)
                  eq_refl eq_refl eq_refl eq_refl)).
Defined.

(** ** The history as a window on the most recent records *)

Lemma firstn_app_firstn {A} n (a b : list A) :
  firstn n (a ++ firstn n b) = firstn n (a ++ b).
Proof.
  rewrite !firstn_app, firstn_firstn. f_equal. f_equal. lia.
Qed.

Lemma fold_push_capped_bounded rs :
  forall hist,
    (length hist <= 50)%nat ->
    fold_left (fun h r => push_capped r h) rs hist
    = firstn 50 (rev rs ++ hist).
Proof.
  induction rs as [|r rs IH]; intros hist Hlen.
  - cbn [fold_left rev app]. symmetry. apply firstn_all2. exact Hlen.
  - cbn [fold_left rev]. rewrite (IH _ (push_capped_length r hist)).
    unfold push_capped. rewrite firstn_app_firstn, <- app_assoc. reflexivity.
Qed.

Lemma isDuplicate_rev hist id : isDuplicate (rev hist) id = isDuplicate hist id.
Proof.
  destruct (isDuplicate hist id) eqn:H.
  - apply isDuplicate_true_iff in H. destruct H as [h [Hin Hh]].
    apply isDuplicate_true_iff. exists h. split; [|exact Hh].
    apply in_rev. rewrite rev_involutive. exact Hin.
  - destruct (isDuplicate (rev hist) id) eqn:Hrev; [|reflexivity].
    apply isDuplicate_true_iff in Hrev. destruct Hrev as [h [Hin Hh]].
    assert (Ht : isDuplicate hist id = true).
    { apply isDuplicate_true_iff. exists h. split; [|exact Hh].
      apply in_rev. exact Hin. }
    congruence.
Qed.

(** X6.  After any non-empty series of recorded results the history is the
    50 most recent records, newest first; once 50 results have been
    recorded nothing of the earlier history is left, so an identifier whose
    authorized record has been pushed out passes the duplicate test
    again. *)
Theorem history_is_window_of_last_50 :
  (forall r rs hist,
      fold_left (fun h x => push_capped x h) (r :: rs) hist
      = firstn 50 (rev (r :: rs) ++ hist))
  /\ (forall rs hist,
         (50 <= length rs)%nat ->
         fold_left (fun h x => push_capped x h) rs hist
         = firstn 50 (rev rs))
  /\ (forall rs hist id,
         (50 <= length rs)%nat ->
         isDuplicate rs id = false ->
         isDuplicate (fold_left (fun h x => push_capped x h) rs hist) id
         = false).
Proof.
  assert (Hone : forall r rs hist,
             fold_left (fun h x => push_capped x h) (r :: rs) hist
             = firstn 50 (rev (r :: rs) ++ hist)).
  { intros r rs hist. cbn [fold_left rev].
    rewrite (fold_push_capped_bounded rs _ (push_capped_length r hist)).
    unfold push_capped. rewrite firstn_app_firstn, <- app_assoc. reflexivity. }
  assert (Hfull : forall rs hist,
             (50 <= length rs)%nat ->
             fold_left (fun h x => push_capped x h) rs hist
             = firstn 50 (rev rs)).
  { intros rs hist Hlen. destruct rs as [|r rs]; [cbn in Hlen; lia|].
    rewrite Hone, firstn_app.
    replace (50 - length (rev (r :: rs)))%nat with 0%nat
      by (rewrite length_rev; lia).
    cbn [firstn]. apply app_nil_r. }
  split; [exact Hone|]. split; [exact Hfull|].
  intros rs hist id Hlen Hno. rewrite (Hfull rs hist Hlen).
  apply isDuplicate_firstn_false. rewrite isDuplicate_rev. exact Hno.
Qed.

(** Fifty records about EM002 pushed on a history that holds EM001. *)
Lemma history_is_window_of_last_50_witness :
  isDuplicate
    (fold_left (fun h x => push_capped x h)
       (repeat (sample_result "EM002" true) 50)
       [sample_result "EM001" true]) "EM001" = false.
Proof.
  apply (proj2 (proj2 history_is_window_of_last_50)).
  - cbn. lia.
  - reflexivity.
Defined.

(** ** Identifiers on record *)

Lemma handleSubmit_history_pushed w st :
  history (fst (handleSubmit w st)) = history st
  \/ exists r,
       id_in_range (submitted_id st) = true
       /\ generateContent w (request_of w st) = Responded r
       /\ history (fst (handleSubmit w st)) =
          push_capped (PayrollOutput.with_timestamp (now_iso w) r)
                      (history st).
Proof.
  destruct (isDuplicate (history st) (submitted_id st)) eqn:Hdup;
    [|destruct (id_in_range (submitted_id st)) eqn:Hr].
  - destruct (handleSubmit_blocked w st (or_introl Hdup)) as [msg ->].
    left. reflexivity.
  - rewrite handleSubmit_checked by assumption. unfold calculatePayroll.
    destruct (generateContent w (request_of w st)) as [r|m].
    + right. exists r. repeat split.
    + left. reflexivity.
  - destruct (handleSubmit_blocked w st (or_intror Hr)) as [msg ->].
    left. reflexivity.
Qed.

Lemma In_firstn {A} (x : A) n l : In x (firstn n l) -> In x l.
Proof.
  revert n. induction l as [|a l IH]; intros n H.
  - rewrite firstn_nil in H. exact H.
  - destruct n as [|n]; [destruct H|].
    cbn [firstn] in H. destruct H as [H|H]; [left; exact H|].
    right. exact (IH n H).
Qed.

Lemma run_ids_on_record_valid es :
  Forall event_echoes_id es ->
  forall st, ids_on_record_valid (history st) ->
             ids_on_record_valid (history (run st es)).
Proof.
  induction 1 as [|e es He _ IH]; intros st Hinv; [exact Hinv|].
  cbn [run fold_left]. apply IH. destruct e as [w|v| |]; cbn [step].
  - destruct (handleSubmit_history_pushed w st) as [H|[r [Hr [Hreply H]]]];
      rewrite H; [exact Hinv|].
    intros h Hin. unfold push_capped in Hin. apply In_firstn in Hin.
    destruct Hin as [<-|Hin]; [|apply Hinv; exact Hin].
    cbn [PayrollOutput.with_timestamp PayrollOutput.employee_id].
    rewrite (He _ _ Hreply), request_of_employee_id. exact Hr.
  - exact Hinv.
  - intros h [].
  - exact Hinv.
Qed.

(** X7.  As long as the hosted model answers about the identifier it was
    asked about, every record of every history reached from the empty one
    carries an identifier of the form [EM] + digits with a number in
    1..100: nothing that failed the checks is ever on record. *)
Theorem reachable_records_have_valid_ids es h :
  Forall event_echoes_id es ->
  In h (history (run initial_state es)) ->
  EM_digits (PayrollOutput.employee_id h)
  /\ exists n, id_number (PayrollOutput.employee_id h) = Some n
               /\ 1 <= n <= 100.
Proof.
  intros Hes Hin.
  assert (Hr : id_in_range (PayrollOutput.employee_id h) = true).
  { apply (run_ids_on_record_valid es Hes initial_state); [|exact Hin].
    intros h' []. }
  apply id_in_range_spec in Hr. destruct Hr as [n [Hn Hrange]].
  split; [|exists n; auto].
  unfold id_number in Hn.
  destruct (match_EM_digits (PayrollOutput.employee_id h)) as [d|] eqn:Hm;
    [|discriminate].
  exists d. apply match_EM_digits_Some. exact Hm.
Qed.

Lemma reachable_records_have_valid_ids_witness :
  exists n, id_number "EM001" = Some n /\ 1 <= n <= 100.
Proof.
  refine (proj2 (reachable_records_have_valid_ids
                   [Submit (echoing_world true)]
                   (PayrollOutput.with_timestamp sample_clock
                      (sample_result "EM001" true)) _ _)).
  - repeat constructor. apply echoing_world_echoes.
  - left. reflexivity.
Defined.

(** ** Spellings of one employee number *)

Lemma all_digits_zero_cons d : all_digits (String "0" d) = all_digits d.
Proof. reflexivity. Qed.

Lemma parseInt_zero_cons d : parseInt (String "0" d) = parseInt d.
Proof. reflexivity. Qed.

Lemma string_not_cons_self c (s : string) : s <> String c s.
Proof.
  intros H. apply (f_equal String.length) in H. cbn in H. lia.
Qed.

(** X8.  A zero written in front of the digits changes the identifier
    string and nothing else: whenever [EM] + digits passes the checks, so
    does [EM0] + digits, with the same number, and an authorized record for
    the one is no duplicate for the other. *)
Theorem leading_zero_is_another_identifier d r :
  id_in_range ("EM" ++ d) = true ->
  PayrollOutput.employee_id r = "EM" ++ d ->
  "EM" ++ String "0" d <> "EM" ++ d
  /\ id_in_range ("EM" ++ String "0" d) = true
  /\ id_number ("EM" ++ String "0" d) = id_number ("EM" ++ d)
  /\ isDuplicate [r] ("EM" ++ String "0" d) = false.
Proof.
  intros Hr He.
  assert (Hne : "EM" ++ String "0" d <> "EM" ++ d).
  { cbn. intros H. inversion H as [H']. exact (string_not_cons_self _ _ (eq_sym H')). }
  assert (Hn : id_number ("EM" ++ String "0" d) = id_number ("EM" ++ d)).
  { unfold id_in_range, id_number in *. cbn [append match_EM_digits] in *.
    rewrite all_digits_zero_cons.
    destruct d as [|c d]; [discriminate Hr|].
    destruct (all_digits (String c d)); [|discriminate Hr].
    cbn [option_map]. rewrite parseInt_zero_cons. reflexivity. }
  split; [exact Hne|]. split; [|split; [exact Hn|]].
  - unfold id_in_range in *. rewrite Hn. exact Hr.
  - rewrite isDuplicate_cons, He.
    replace ("EM" ++ d =? "EM" ++ String "0" d)%string with false
      by (symmetry; apply String.eqb_neq; congruence).
    reflexivity.
Qed.

Lemma leading_zero_is_another_identifier_witness :
  id_in_range "EM0023" = true
  /\ isDuplicate [sample_result "EM023" true] "EM0023" = false.
Proof.
  pose proof (leading_zero_is_another_identifier "023"
                (sample_result "EM023" true) eq_refl eq_refl)
    as [_ [Hr [_ Hd]]].
  split; [exact Hr | exact Hd].
Defined.

(* ------------------------------------------------------------------ *)
(** * The aggregate figures of the admin panel *)

Lemma filter_length_le {A} (f : A -> bool) l :
  (length (filter f l) <= length l)%nat.
Proof.
  induction l as [|a l IH]; [apply Nat.le_refl|].
  cbn [filter]. destruct (f a); cbn [length]; lia.
Qed.

Lemma length_filter_cons {A} (f : A -> bool) x l :
  length (filter f (x :: l)) = (Nat.b2n (f x) + length (filter f l))%nat.
Proof. cbn [filter]. destruct (f x); reflexivity. Qed.

Lemma length_filter_all {A} (f : A -> bool) l :
  length (filter f l) = length l <-> forall x, In x l -> f x = true.
Proof.
  induction l as [|a l IH].
  - split; [intros _ x [] | reflexivity].
  - rewrite length_filter_cons. cbn [length].
    pose proof (filter_length_le f l) as Hle.
    destruct (f a) eqn:Ha; cbn [Nat.b2n].
    + split.
      * intros H x [<-|Hx]; [exact Ha|]. apply IH; [lia | exact Hx].
      * intros H. cbn [Nat.add]. f_equal. apply IH.
        intros x Hx. apply H. right. exact Hx.
    + split; [intros H; lia|].
      intros H. specialize (H a (or_introl eq_refl)). congruence.
Qed.

(** A string passes at most one of the four slice tests, and one exactly
    when it is the value of a member of [RiskLevel]. *)
Lemma risk_slice_tests r :
  (Nat.b2n ((r =? RiskLevel_value RiskLevel.LOW)%string
            || (r =? RiskLevel_value RiskLevel.NONE)%string)
   + Nat.b2n (r =? RiskLevel_value RiskLevel.MEDIUM)%string
   + Nat.b2n (r =? RiskLevel_value RiskLevel.HIGH)%string
   + Nat.b2n (r =? RiskLevel_value RiskLevel.CRITICAL)%string
   = Nat.b2n (known_risk_level r))%nat.
Proof.
  unfold known_risk_level. cbn [existsb].
  destruct (String.eqb_spec r (RiskLevel_value RiskLevel.NONE)) as [->|_];
    [reflexivity|].
  destruct (String.eqb_spec r (RiskLevel_value RiskLevel.LOW)) as [->|_];
    [reflexivity|].
  destruct (String.eqb_spec r (RiskLevel_value RiskLevel.MEDIUM)) as [->|_];
    [reflexivity|].
  destruct (String.eqb_spec r (RiskLevel_value RiskLevel.HIGH)) as [->|_];
    [reflexivity|].
  destruct (String.eqb_spec r (RiskLevel_value RiskLevel.CRITICAL)) as [->|_];
    reflexivity.
Qed.

Lemma high_or_critical_tests r :
  Nat.b2n ((r =? RiskLevel_value RiskLevel.HIGH)%string
           || (r =? RiskLevel_value RiskLevel.CRITICAL)%string)
  = (Nat.b2n (r =? RiskLevel_value RiskLevel.HIGH)%string
     + Nat.b2n (r =? RiskLevel_value RiskLevel.CRITICAL)%string)%nat.
Proof.
  destruct (String.eqb_spec r (RiskLevel_value RiskLevel.HIGH)) as [->|_];
    [reflexivity|].
  destruct (r =? RiskLevel_value RiskLevel.CRITICAL)%string; reflexivity.
Qed.

Lemma risk_slices_count_known hist :
  (length (filter (fun h => risk_is RiskLevel.LOW h
                            || risk_is RiskLevel.NONE h) hist)
   + length (filter (risk_is RiskLevel.MEDIUM) hist)
   + length (filter (risk_is RiskLevel.HIGH) hist)
   + length (filter (risk_is RiskLevel.CRITICAL) hist)
   = length (filter (fun h => known_risk_level (PayrollOutput.risk_level h))
                    hist))%nat.
Proof.
  induction hist as [|h hist IH]; [reflexivity|].
  rewrite !length_filter_cons. unfold risk_is in *. cbv beta in *.
  pose proof (risk_slice_tests (PayrollOutput.risk_level h)) as Hh. lia.
Qed.

Lemma high_risk_is_high_plus_critical hist :
  length (filter (fun h => risk_is RiskLevel.HIGH h
                           || risk_is RiskLevel.CRITICAL h) hist)
  = (length (filter (risk_is RiskLevel.HIGH) hist)
     + length (filter (risk_is RiskLevel.CRITICAL) hist))%nat.
Proof.
  induction hist as [|h hist IH]; [reflexivity|].
  rewrite !length_filter_cons. unfold risk_is in *. cbv beta in *.
  pose proof (high_or_critical_tests (PayrollOutput.risk_level h)) as Hh. lia.
Qed.

Lemma stats_Some hist s :
  stats hist = Some s ->
  hist <> []
  /\ s = mkStats
      (reduce_sum PayrollOutput.final_salary hist)
      (reduce_sum
         (fun curr => number_or (PayrollOutput.efficiency_percentage curr) 0)
         hist
       / inject_Z (Z.of_nat (length hist)))%Q
      (length (filter (fun h => risk_is RiskLevel.HIGH h
                                || risk_is RiskLevel.CRITICAL h) hist))
      (length (filter (fun h => negb (PayrollOutput.authorized h)) hist))
      (map (fun s =>
              (s, reduce_sum PayrollOutput.final_salary
                    (filter (fun h => (PayrollOutput.sector h =? s)%string)
                            hist)))
           Sector_values)
      [ ("Low/None",
         length (filter (fun h => risk_is RiskLevel.LOW h
                                  || risk_is RiskLevel.NONE h) hist));
        ("Medium", length (filter (risk_is RiskLevel.MEDIUM) hist));
        ("High", length (filter (risk_is RiskLevel.HIGH) hist));
        ("Critical", length (filter (risk_is RiskLevel.CRITICAL) hist)) ].
Proof.
  unfold stats. destruct hist as [|h hist]; [discriminate|].
  cbn [length Nat.eqb]. intros H. inversion H. split; [discriminate|reflexivity].
Qed.

(** X9.  Whenever the panel has figures, the incident count is the High
    slice plus the Critical slice of the compliance chart, and the four
    slices together count exactly the records whose risk level is one of the
    five values of [RiskLevel]: they never exceed the number of records and
    add up to it exactly when every record holds such a value; a record
    with any other string is in no slice. *)
Theorem risk_chart_partitions_history hist s :
  stats hist = Some s ->
  exists low_none medium high critical,
    riskData s = [("Low/None", low_none); ("Medium", medium);
                  ("High", high); ("Critical", critical)]
    /\ highRiskCount s = (high + critical)%nat
    /\ (low_none + medium + high + critical <= length hist)%nat
    /\ ((low_none + medium + high + critical = length hist)%nat
        <-> forall h, In h hist ->
                      exists level,
                        PayrollOutput.risk_level h = RiskLevel_value level).
Proof.
  intros H. apply stats_Some in H. destruct H as [_ ->].
  do 4 eexists. cbn [riskData highRiskCount].
  split; [reflexivity|]. split; [apply high_risk_is_high_plus_critical|].
  rewrite risk_slices_count_known. split; [apply filter_length_le|].
  rewrite length_filter_all. split.
  - intros Hall h Hin. specialize (Hall h Hin).
    unfold known_risk_level in Hall. apply existsb_exists in Hall.
    destruct Hall as [level [_ Hl]]. exists level.
    apply String.eqb_eq. exact Hl.
  - intros Hall h Hin. destruct (Hall h Hin) as [level Hl].
    unfold known_risk_level. apply existsb_exists. exists level. split.
    + destruct level; cbn; tauto.
    + apply String.eqb_eq. exact Hl.
Qed.

(** Two records: one with [low], one with a string that is no member. *)
Lemma risk_chart_partitions_history_witness :
  match stats [sample_result "EM001" true;
               PayrollOutput.mk "EM002" "Mining" true true "working" "high"
                 true true 95 "HIGH" (17 # 2) 50 425 (935 # 2) "full_day"
                 (9 # 10) "on task" EmptyString] with
  | Some s =>
      exists low_none medium high critical,
        riskData s = [("Low/None", low_none); ("Medium", medium);
                      ("High", high); ("Critical", critical)]
        /\ highRiskCount s = (high + critical)%nat
        /\ (low_none + medium + high + critical <= 2)%nat
  | None => False
  end.
Proof.
  destruct (risk_chart_partitions_history
              [sample_result "EM001" true;
               PayrollOutput.mk "EM002" "Mining" true true "working" "high"
                 true true 95 "HIGH" (17 # 2) 50 425 (935 # 2) "full_day"
                 (9 # 10) "on task" EmptyString]
              _ eq_refl)
    as [a [b [c [d [H1 [H2 [H3 _]]]]]]].
  exists a, b, c, d. split; [exact H1|]. split; [exact H2 | exact H3].
Defined.

Lemma number_or_zero_eq x : (number_or x 0 == x)%Q.
Proof.
  unfold number_or. destruct (Qeq_bool x 0) eqn:H; [|reflexivity].
  apply Qeq_bool_iff in H. symmetry. exact H.
Qed.

Lemma inject_nat_succ n :
  (inject_Z (Z.of_nat (S n)) == inject_Z (Z.of_nat n) + 1)%Q.
Proof.
  rewrite Nat2Z.inj_succ, <- Z.add_1_r, inject_Z_plus. reflexivity.
Qed.

Lemma fold_sum_bounds {A} (f : A -> Q) xs :
  (forall x, In x xs -> 0 <= f x <= 100)%Q ->
  forall acc,
    (acc <= fold_left (fun acc curr => acc + f curr) xs acc
     /\ fold_left (fun acc curr => acc + f curr) xs acc
        <= acc + 100 * inject_Z (Z.of_nat (length xs)))%Q.
Proof.
  induction xs as [|x xs IH]; intros Hf acc.
  - cbn [fold_left length Z.of_nat]. change (inject_Z 0) with 0%Q.
    split; lra.
  - cbn [fold_left length]. rewrite inject_nat_succ.
    destruct (IH (fun y Hy => Hf y (or_intror Hy)) (acc + f x)%Q) as [Hlo Hhi].
    pose proof (Hf x (or_introl eq_refl)) as [Hx0 Hx1].
    split; lra.
Qed.

(** X10.  The panel has no figures exactly when the history is empty; when
    it has, and every record's efficiency lies in 0..100, so does the mean
    efficiency it shows. *)
Theorem mean_efficiency_within_bounds hist :
  (stats hist = None <-> hist = [])
  /\ (forall s,
         stats hist = Some s ->
         (forall h, In h hist ->
                    0 <= PayrollOutput.efficiency_percentage h <= 100)%Q ->
         (0 <= avgEfficiency s <= 100)%Q).
Proof.
  split.
  - unfold stats. destruct hist as [|h hist]; cbn [length Nat.eqb].
    + split; reflexivity.
    + split; discriminate.
  - intros s Hs Hall. apply stats_Some in Hs. destruct Hs as [Hne ->].
    cbn [avgEfficiency]. unfold reduce_sum.
    assert (Hpos : (0 < inject_Z (Z.of_nat (length hist)))%Q).
    { destruct hist as [|h hist]; [congruence|].
      cbn [length]. rewrite inject_nat_succ.
      assert (0 <= inject_Z (Z.of_nat (length hist)))%Q
        by (change 0%Q with (inject_Z 0); rewrite <- Zle_Qle; lia).
      lra. }
    destruct (fold_sum_bounds
                (fun curr =>
                   number_or (PayrollOutput.efficiency_percentage curr) 0)
                hist) with (acc := 0%Q) as [Hlo Hhi].
    { intros h Hin. rewrite number_or_zero_eq. apply Hall. exact Hin. }
    split.
    + apply Qle_shift_div_l; [exact Hpos|]. lra.
    + apply Qle_shift_div_r; [exact Hpos|]. lra.
Qed.

Lemma mean_efficiency_within_bounds_witness :
  match stats [sample_result "EM001" true; sample_result "EM002" false] with
  | Some s => (0 <= avgEfficiency s <= 100)%Q
  | None => False
  end.
Proof.
  refine (proj2 (mean_efficiency_within_bounds
                   [sample_result "EM001" true; sample_result "EM002" false])
            _ eq_refl _).
  intros h [<-|[<-|[]]]; cbn; split; discriminate.
Defined.

Lemma row_risk_class_neutral r :
  (row_risk_class r
   =? "bg-slate-100 dark:bg-slate-700 text-slate-500 dark:text-slate-400")%string
  = negb ((r =? RiskLevel_value RiskLevel.HIGH)%string
          || (r =? RiskLevel_value RiskLevel.CRITICAL)%string).
Proof.
  unfold row_risk_class.
  destruct (r =? RiskLevel_value RiskLevel.CRITICAL)%string;
    destruct (r =? RiskLevel_value RiskLevel.HIGH)%string; reflexivity.
Qed.

(** X11.  The rows of the archive table whose risk badge is coloured (not
    the neutral grey) are exactly the records counted as incident alerts,
    and the records counted as entry denials together with the authorized
    ones make up the whole history. *)
Theorem incident_count_matches_coloured_rows hist s :
  stats hist = Some s ->
  highRiskCount s =
  length (filter
            (fun h =>
               negb (row_risk_class (PayrollOutput.risk_level h)
                     =? "bg-slate-100 dark:bg-slate-700 text-slate-500 dark:text-slate-400")%string)
            hist)
  /\ (unauthorizedCount s
      + length (filter PayrollOutput.authorized hist) = length hist)%nat.
Proof.
  intros H. apply stats_Some in H. destruct H as [_ ->].
  cbn [highRiskCount unauthorizedCount]. split.
  - f_equal. apply filter_ext. intros h.
    rewrite row_risk_class_neutral, negb_involutive. reflexivity.
  - clear. induction hist as [|h hist IH]; [reflexivity|].
    cbn [filter]. destruct (PayrollOutput.authorized h); cbn [negb length]; lia.
Qed.

Lemma incident_count_matches_coloured_rows_witness :
  match stats [sample_result "EM001" true; sample_result "EM002" false] with
  | Some s =>
      (unauthorizedCount s
       + length (filter PayrollOutput.authorized
                   [sample_result "EM001" true; sample_result "EM002" false])
       = 2)%nat
  | None => False
  end.
Proof.
  exact (proj2 (incident_count_matches_coloured_rows
                  [sample_result "EM001" true; sample_result "EM002" false]
                  _ eq_refl)).
Defined.

(* ------------------------------------------------------------------ *)
(** * Further properties of the calculation rules *)

Lemma step10_bonus eff base :
  90 <= eff ->
  (SYSTEM_PROMPT.step10_final_salary eff base == base * (11 # 10))%Q.
Proof.
  intros H. unfold SYSTEM_PROMPT.step10_final_salary.
  replace (90 <=? eff) with true by (symmetry; apply Z.leb_le; lia).
  lra.
Qed.

Lemma step10_normal eff base :
  50 <= eff < 90 ->
  (SYSTEM_PROMPT.step10_final_salary eff base == base)%Q.
Proof.
  intros H. unfold SYSTEM_PROMPT.step10_final_salary.
  replace (90 <=? eff) with false by (symmetry; apply Z.leb_gt; lia).
  replace (50 <=? eff) with true by (symmetry; apply Z.leb_le; lia).
  reflexivity.
Qed.

Lemma step10_penalty eff base :
  eff < 50 ->
  (SYSTEM_PROMPT.step10_final_salary eff base == base * (9 # 10))%Q.
Proof.
  intros H. unfold SYSTEM_PROMPT.step10_final_salary.
  replace (90 <=? eff) with false by (symmetry; apply Z.leb_gt; lia).
  replace (50 <=? eff) with false by (symmetry; apply Z.leb_gt; lia).
  lra.
Qed.

(** X12.  The colour of the productivity bar tells the pay band of the
    rules: for a whole-number efficiency and a positive base salary the bar
    is emerald exactly when the final salary is above the base salary, red
    exactly when it is below, and the primary colour exactly when the two
    are equal. *)
Theorem bar_colour_follows_pay_band (eff : Z) (base : Q) :
  (0 < base)%Q ->
  (efficiency_bar_class (inject_Z eff) = "bg-emerald-500"
   <-> (base < SYSTEM_PROMPT.step10_final_salary eff base)%Q)
  /\ (efficiency_bar_class (inject_Z eff) = "bg-red-500"
      <-> (SYSTEM_PROMPT.step10_final_salary eff base < base)%Q)
  /\ (efficiency_bar_class (inject_Z eff) = "bg-primary-500"
      <-> (SYSTEM_PROMPT.step10_final_salary eff base == base)%Q).
Proof.
  intros Hb. unfold efficiency_bar_class.
  change 90%Q with (inject_Z 90). change 50%Q with (inject_Z 50).
  rewrite !Qle_bool_inject_Z.
  destruct (Z.leb_spec 90 eff) as [H90|H90].
  - rewrite (step10_bonus eff base H90).
    repeat split; intros H; try reflexivity; try discriminate H; lra.
  - destruct (Z.leb_spec 50 eff) as [H50|H50].
    + rewrite (step10_normal eff base (conj H50 H90)).
      repeat split; intros H; try reflexivity; try discriminate H; lra.
    + rewrite (step10_penalty eff base H50).
      repeat split; intros H; try reflexivity; try discriminate H; lra.
Qed.

Lemma bar_colour_follows_pay_band_witness :
  efficiency_bar_class (inject_Z 92) = "bg-emerald-500"
  <-> (425 < SYSTEM_PROMPT.step10_final_salary 92 425)%Q.
Proof.
  assert (Hb : (0 < 425)%Q) by reflexivity.
  exact (proj1 (bar_colour_follows_pay_band 92 425 Hb)).
Defined.

(** X13.  The rate schedule repeats every ten employee numbers: with floor
    division and remainder, the rate is the base rate when [(n - 1) mod 10]
    is below 5 and the base rate plus 5 otherwise; so numbers 1..5, 11..15,
    ... are paid the base rate and 6..10, 16..20, ... five more. *)
Theorem hourly_rate_has_period_ten s n :
  SYSTEM_PROMPT.hourly_rate s n =
  (if (n - 1) mod 10 <? 5 then SYSTEM_PROMPT.base_rate s
   else SYSTEM_PROMPT.base_rate s + 5)
  /\ SYSTEM_PROMPT.hourly_rate s (n + 10) = SYSTEM_PROMPT.hourly_rate s n
  /\ (SYSTEM_PROMPT.hourly_rate s (n + 5) <> SYSTEM_PROMPT.hourly_rate s n).
Proof.
  assert (Hform : forall m,
             SYSTEM_PROMPT.hourly_rate s m =
             (if (m - 1) mod 10 <? 5 then SYSTEM_PROMPT.base_rate s
              else SYSTEM_PROMPT.base_rate s + 5)).
  { intros m. unfold SYSTEM_PROMPT.hourly_rate, SYSTEM_PROMPT.group.
    destruct (Z.even ((m - 1) / 5)) eqn:He.
    - apply Z.even_spec in He. destruct He as [k Hk].
      replace ((m - 1) mod 10 <? 5) with true; [reflexivity|].
      symmetry. apply Z.ltb_lt. Z.div_mod_to_equations. lia.
    - assert (Ho : Z.odd ((m - 1) / 5) = true)
        by (rewrite <- Z.negb_even, He; reflexivity).
      apply Z.odd_spec in Ho. destruct Ho as [k Hk].
      replace ((m - 1) mod 10 <? 5) with false; [reflexivity|].
      symmetry. apply Z.ltb_ge. Z.div_mod_to_equations. lia. }
  split; [apply Hform|]. split.
  - rewrite !Hform.
    replace ((n + 10 - 1) mod 10) with ((n - 1) mod 10); [reflexivity|].
    Z.div_mod_to_equations. lia.
  - rewrite !Hform.
    destruct (Z.ltb_spec ((n - 1) mod 10) 5) as [H|H];
      destruct (Z.ltb_spec ((n + 5 - 1) mod 10) 5) as [H'|H'];
      try lia; exfalso; revert H H'; Z.div_mod_to_equations; lia.
Qed.

(** X14.  With a positive base salary the bonus is paid exactly when the
    activity is high, no required item is missing and the posture is safe;
    the penalty is applied exactly when the activity is low or absent, or
    medium with a required item missing, or high with both a required item
    missing and an unsafe posture. *)
Theorem bonus_needs_full_compliance s a helmet vest unsafe_posture base :
  (0 < base)%Q ->
  ((base < SYSTEM_PROMPT.step10_final_salary
             (SYSTEM_PROMPT.step6_efficiency s a helmet vest unsafe_posture)
             base)%Q
   <-> a = ActivityLevel.HIGH
       /\ SYSTEM_PROMPT.missing_required_ppe s helmet vest = false
       /\ unsafe_posture = false)
  /\
  ((SYSTEM_PROMPT.step10_final_salary
      (SYSTEM_PROMPT.step6_efficiency s a helmet vest unsafe_posture) base
    < base)%Q
   <-> a = ActivityLevel.LOW \/ a = ActivityLevel.NOT_PRESENT
       \/ (a = ActivityLevel.MEDIUM
           /\ SYSTEM_PROMPT.missing_required_ppe s helmet vest = true)
       \/ (a = ActivityLevel.HIGH
           /\ SYSTEM_PROMPT.missing_required_ppe s helmet vest = true
           /\ unsafe_posture = true)).
Proof.
  intros Hb.
  assert (Hcases :
            let e := SYSTEM_PROMPT.step6_efficiency s a helmet vest
                       unsafe_posture in
            (90 <= e /\ a = ActivityLevel.HIGH
             /\ SYSTEM_PROMPT.missing_required_ppe s helmet vest = false
             /\ unsafe_posture = false)
            \/ (50 <= e < 90
                /\ ~ (a = ActivityLevel.HIGH
                      /\ SYSTEM_PROMPT.missing_required_ppe s helmet vest
                         = false
                      /\ unsafe_posture = false)
                /\ ~ (a = ActivityLevel.LOW \/ a = ActivityLevel.NOT_PRESENT
                      \/ (a = ActivityLevel.MEDIUM
                          /\ SYSTEM_PROMPT.missing_required_ppe s helmet vest
                             = true)
                      \/ (a = ActivityLevel.HIGH
                          /\ SYSTEM_PROMPT.missing_required_ppe s helmet vest
                             = true
                          /\ unsafe_posture = true)))
            \/ (e < 50
                /\ (a = ActivityLevel.LOW \/ a = ActivityLevel.NOT_PRESENT
                    \/ (a = ActivityLevel.MEDIUM
                        /\ SYSTEM_PROMPT.missing_required_ppe s helmet vest
                           = true)
                    \/ (a = ActivityLevel.HIGH
                        /\ SYSTEM_PROMPT.missing_required_ppe s helmet vest
                           = true
                        /\ unsafe_posture = true)))).
  { destruct s, a, helmet, vest, unsafe_posture; cbn;
      first [ left; repeat split; (lia || reflexivity)
            | right; right; split; [lia|]; intuition (auto; congruence)
            | right; left; split; [lia|]; split;
              intuition (discriminate || congruence) ]. }
  cbn zeta in Hcases.
  destruct Hcases as [[He Hc]|[[He [Hn1 Hn2]]|[He Hc]]].
  - rewrite (step10_bonus _ base He). split.
    + split; [intros _; exact Hc | intros _; lra].
    + split; [intros H; lra|].
      destruct Hc as [-> [Hm ->]]. rewrite Hm.
      intuition (discriminate || congruence).
  - rewrite (step10_normal _ base He). split.
    + split; [intros H; lra | intros H; tauto].
    + split; [intros H; lra | intros H; tauto].
  - rewrite (step10_penalty _ base He). split.
    + split; [intros H; lra|].
      intros [-> [Hm ->]]. rewrite Hm in Hc.
      intuition (discriminate || congruence).
    + split; [intros _; exact Hc | intros _; lra].
Qed.

Lemma bonus_needs_full_compliance_witness :
  (425 < SYSTEM_PROMPT.step10_final_salary
           (SYSTEM_PROMPT.step6_efficiency MINING ActivityLevel.HIGH
              true false false) 425)%Q.
Proof.
  assert (Hb : (0 < 425)%Q) by reflexivity.
  apply (proj1 (bonus_needs_full_compliance MINING ActivityLevel.HIGH
                  true false false 425 Hb)).
  repeat split.
Defined.

Lemma step10_cases eff base :
  (90 <= eff
   /\ (SYSTEM_PROMPT.step10_final_salary eff base == base * (11 # 10))%Q)
  \/ (50 <= eff < 90
      /\ (SYSTEM_PROMPT.step10_final_salary eff base == base)%Q)
  \/ (eff < 50
      /\ (SYSTEM_PROMPT.step10_final_salary eff base == base * (9 # 10))%Q).
Proof.
  destruct (Z.le_gt_cases 90 eff) as [H|H].
  - left. split; [exact H | apply step10_bonus; exact H].
  - destruct (Z.le_gt_cases 50 eff) as [H'|H'].
    + right. left. split; [lia | apply step10_normal; lia].
    + right. right. split; [exact H' | apply step10_penalty; exact H'].
Qed.

(** X15.  For a base salary that is not negative, the final salary stays
    within ten per cent of it, and a higher efficiency never gives a lower
    final salary. *)
Theorem final_salary_monotone_and_bounded (base : Q) :
  (0 <= base)%Q ->
  (forall eff,
      (base * (9 # 10) <= SYSTEM_PROMPT.step10_final_salary eff base)%Q
      /\ (SYSTEM_PROMPT.step10_final_salary eff base <= base * (11 # 10))%Q)
  /\ (forall eff1 eff2,
         eff1 <= eff2 ->
         (SYSTEM_PROMPT.step10_final_salary eff1 base
          <= SYSTEM_PROMPT.step10_final_salary eff2 base)%Q).
Proof.
  intros Hb. split.
  - intros eff.
    destruct (step10_cases eff base) as [[_ H]|[[_ H]|[_ H]]];
      rewrite H; split; lra.
  - intros eff1 eff2 Hle.
    destruct (step10_cases eff1 base) as [[H1 E1]|[[H1 E1]|[H1 E1]]];
      destruct (step10_cases eff2 base) as [[H2 E2]|[[H2 E2]|[H2 E2]]];
      rewrite E1, E2; try lra; exfalso; lia.
Qed.

Lemma final_salary_monotone_and_bounded_witness :
  (SYSTEM_PROMPT.step10_final_salary 40 425
   <= SYSTEM_PROMPT.step10_final_salary 92 425)%Q.
Proof.
  assert (Hb : (0 <= 425)%Q) by discriminate.
  assert (Hle : 40 <= 92) by discriminate.
  exact (proj2 (final_salary_monotone_and_bounded 425 Hb) 40 92 Hle).
Defined.

Lemma hourly_rate_positive s n : 45 <= SYSTEM_PROMPT.hourly_rate s n.
Proof.
  unfold SYSTEM_PROMPT.hourly_rate.
  destruct (Z.even (SYSTEM_PROMPT.group n)); destruct s; cbn; lia.
Qed.

(** X16.  For two times that parse to [t0] (check-in) and [t1] (current)
    minutes, the hours are [(t1 - t0) / 60] with no wrap at midnight: the
    shift counts as a full day exactly from 360 minutes on, and a current
    time earlier on the clock than the check-in gives negative hours, a
    negative base salary and half_day. *)
Theorem hours_do_not_wrap_at_midnight check_in current t0 t1 :
  SYSTEM_PROMPT.parse_time check_in = Some t0 ->
  SYSTEM_PROMPT.parse_time current = Some t1 ->
  exists hours,
    SYSTEM_PROMPT.step8_hours_worked check_in current = Some hours
    /\ (hours == inject_Z (t1 - t0) / 60)%Q
    /\ (SYSTEM_PROMPT.step11_work_status hours = WorkStatus.FULL_DAY
        <-> 360 <= t1 - t0)
    /\ (t1 < t0 ->
        (hours < 0)%Q
        /\ SYSTEM_PROMPT.step11_work_status hours = WorkStatus.HALF_DAY
        /\ forall s n,
             (SYSTEM_PROMPT.base_salary hours (SYSTEM_PROMPT.hourly_rate s n)
              < 0)%Q).
Proof.
  intros H0 H1. unfold SYSTEM_PROMPT.step8_hours_worked. rewrite H0, H1.
  eexists. split; [reflexivity|].
  assert (Hq : (t1 - t0 # 60 == inject_Z (t1 - t0) / 60)%Q).
  { unfold Qeq, Qdiv, Qmult, Qinv, inject_Z. cbn. lia. }
  assert (Hfull : (6 <= t1 - t0 # 60)%Q <-> 360 <= t1 - t0).
  { unfold Qle. cbn. lia. }
  split; [exact Hq|]. split.
  - unfold SYSTEM_PROMPT.step11_work_status.
    destruct (Qle_bool 6 (t1 - t0 # 60)) eqn:Hb.
    + apply Qle_bool_iff in Hb. split; [intros _; apply Hfull; exact Hb|reflexivity].
    + split; [discriminate|]. intros H. apply Hfull in H.
      apply Qle_bool_iff in H. congruence.
  - intros Hlt.
    assert (Hneg : (t1 - t0 # 60 < 0)%Q) by (unfold Qlt; cbn; lia).
    split; [exact Hneg|]. split.
    + apply step11_half_day. lra.
    + intros s n. unfold SYSTEM_PROMPT.base_salary.
      pose proof (hourly_rate_positive s n) as Hr.
      assert (Hrq : (45 <= inject_Z (SYSTEM_PROMPT.hourly_rate s n))%Q).
      { change 45%Q with (inject_Z 45). rewrite <- Zle_Qle. exact Hr. }
      nra.
Qed.

(** Check-in at 22:00, current time 06:00. *)
Lemma hours_do_not_wrap_at_midnight_witness :
  exists hours,
    SYSTEM_PROMPT.step8_hours_worked "22:00" "06:00" = Some hours
    /\ (hours < 0)%Q
    /\ SYSTEM_PROMPT.step11_work_status hours = WorkStatus.HALF_DAY.
Proof.
  destruct (hours_do_not_wrap_at_midnight "22:00" "06:00" 1320 360
              eq_refl eq_refl) as [hours [Hs [_ [_ Hneg]]]].
  assert (Hlt : 360 < 1320) by reflexivity.
  exists hours. split; [exact Hs|].
  split; [exact (proj1 (Hneg Hlt)) | exact (proj1 (proj2 (Hneg Hlt)))].
Defined.

(* ------------------------------------------------------------------ *)
(** * The request handed to the hosted model *)

Lemma append_assoc_string (a b c : string) : (a ++ b) ++ c = a ++ (b ++ c).
Proof. induction a as [|x a IH]; cbn; [reflexivity | rewrite IH; reflexivity]. Qed.

(** Reading one written character gives the character back. *)
Lemma JSON_read_escape_char c t :
  JSON_read_string (JSON_escape_char c ++ t) =
  match JSON_read_string t with
  | Some (u, r) => Some (String c u, r)
  | None => None
  end.
Proof.
  destruct c as [[] [] [] [] [] [] [] []]; reflexivity.
Qed.

Lemma JSON_read_escape s rest :
  JSON_read_string (JSON_escape s ++ String dquote rest) = Some (s, rest).
Proof.
  induction s as [|c s IH].
  - reflexivity.
  - cbn [JSON_escape]. rewrite append_assoc_string, JSON_read_escape_char, IH.
    reflexivity.
Qed.

Lemma JSON_quote_append s rest :
  JSON_quote s ++ rest = String dquote (JSON_escape s ++ String dquote rest).
Proof.
  unfold JSON_quote. cbn [append]. rewrite append_assoc_string. reflexivity.
Qed.

(** Two quoted strings followed by anything are equal only when the strings
    and what follows are. *)
Lemma JSON_quote_append_inj s1 s2 rest1 rest2 :
  JSON_quote s1 ++ rest1 = JSON_quote s2 ++ rest2 ->
  s1 = s2 /\ rest1 = rest2.
Proof.
  rewrite !JSON_quote_append. intros H. inversion H as [H'].
  apply (f_equal JSON_read_string) in H'.
  rewrite !JSON_read_escape in H'. inversion H'. auto.
Qed.

Lemma Sector_value_inj a b : Sector_value a = Sector_value b -> a = b.
Proof. destruct a, b; cbn; intros H; try reflexivity; discriminate H. Qed.

Lemma append_inj_l (a x y : string) : a ++ x = a ++ y -> x = y.
Proof.
  induction a as [|c a IH]; cbn; intros H; [exact H|].
  inversion H as [H']. exact (IH H').
Qed.

(** X17.  The text sent to the hosted model determines the four fields it
    was built from: two inputs with the same request text have the same
    identifier, sector, check-in time and current time, whatever characters
    the strings hold. *)
Theorem request_text_determines_fields i1 i2 :
  request_text i1 = request_text i2 ->
  PayrollInput.employee_id i1 = PayrollInput.employee_id i2
  /\ PayrollInput.sector i1 = PayrollInput.sector i2
  /\ PayrollInput.check_in_time i1 = PayrollInput.check_in_time i2
  /\ PayrollInput.current_time i1 = PayrollInput.current_time i2.
Proof.
  unfold request_text, JSON_stringify_input. intros H.
  do 4 apply append_inj_l in H.
  apply JSON_quote_append_inj in H. destruct H as [Hid H].
  do 3 apply append_inj_l in H.
  apply JSON_quote_append_inj in H. destruct H as [Hsec H].
  do 3 apply append_inj_l in H.
  apply JSON_quote_append_inj in H. destruct H as [Hin H].
  do 3 apply append_inj_l in H.
  apply JSON_quote_append_inj in H. destruct H as [Hcur _].
  apply Sector_value_inj in Hsec. auto.
Qed.

Lemma request_text_determines_fields_witness :
  PayrollInput.employee_id INITIAL_INPUT
  = PayrollInput.employee_id
      (PayrollInput.with_worker_image (Some "AAAA") INITIAL_INPUT).
Proof.
  exact (proj1 (request_text_determines_fields INITIAL_INPUT
                  (PayrollInput.with_worker_image (Some "AAAA") INITIAL_INPUT)
                  eq_refl)).
Defined.

Lemma or_undefined_truthy o :
  or_undefined o = match o with
                   | Some (String c rest) => Some (String c rest)
                   | _ => None
                   end.
Proof. reflexivity. Qed.

(** X18.  The request built by the handler always starts with the text
    part, which does not mention the frame; it has a second part, the frame
    as [image/jpeg], exactly when a frame that is not the empty string was
    captured. *)
Theorem image_part_iff_frame_captured w st :
  exists image_parts,
    request_parts (request_of w st)
    = TextPart (request_text (input st)) :: image_parts
    /\ (forall frame,
           captureImage w = Some frame -> frame <> EmptyString ->
           image_parts = [InlineDataPart "image/jpeg" frame])
    /\ (captureImage w = None \/ captureImage w = Some EmptyString ->
        image_parts = []).
Proof.
  unfold request_parts, request_of.
  cbn [PayrollInput.with_worker_image PayrollInput.worker_image].
  eexists. split; [reflexivity|].
  destruct (captureImage w) as [[|c rest]|]; cbn [or_undefined]; split.
  - intros frame H Hne. inversion H; subst. congruence.
  - reflexivity.
  - intros frame H _. inversion H; subst. reflexivity.
  - intros [H|H]; discriminate H.
  - intros frame H. discriminate H.
  - reflexivity.
Qed.

Lemma image_part_iff_frame_captured_witness :
  request_parts (request_of (world_with_frame (Some "AAAA")) initial_state)
  = [TextPart (request_text INITIAL_INPUT);
     InlineDataPart "image/jpeg" "AAAA"].
Proof.
  destruct (image_part_iff_frame_captured
              (world_with_frame (Some "AAAA")) initial_state)
    as [image_parts [Hparts [Himg _]]].
  rewrite Hparts. f_equal. apply Himg; [reflexivity | discriminate].
Defined.

(** ** The captured frame *)

Lemma split_comma_nonempty s : split_comma s <> [].
Proof.
  destruct s as [|c rest]; cbn [split_comma]; [discriminate|].
  destruct (c =? ",")%char; [discriminate|].
  destruct (split_comma rest); discriminate.
Qed.

Lemma split_comma_no_comma q : no_comma q = true -> split_comma q = [q].
Proof.
  induction q as [|c q IH]; [reflexivity|].
  cbn [no_comma split_comma]. intros H. apply andb_true_iff in H.
  destruct H as [Hc Hq]. apply negb_true_iff in Hc. rewrite Hc, (IH Hq).
  reflexivity.
Qed.

Lemma split_comma_prefix p q :
  no_comma p = true ->
  split_comma (p ++ String "," q) = p :: split_comma q.
Proof.
  induction p as [|c p IH]; [reflexivity|].
  cbn [no_comma append split_comma]. intros H. apply andb_true_iff in H.
  destruct H as [Hc Hp]. apply negb_true_iff in Hc. rewrite Hc, (IH Hp).
  reflexivity.
Qed.

(** X19.  From a data URL [header,payload] whose header has no comma,
    [captureImage] returns the payload up to its first comma, the whole
    payload when it has none; a URL without any comma gives nothing; and an
    empty payload, as in [data:,], reaches the request as no frame at
    all. *)
Theorem captured_frame_is_payload header payload :
  no_comma header = true ->
  captureImage_of (Some (header ++ String "," payload))
  = hd_error (split_comma payload)
  /\ (no_comma payload = true ->
      captureImage_of (Some (header ++ String "," payload)) = Some payload
      /\ or_undefined (captureImage_of (Some (header ++ String "," payload)))
         = match payload with
           | EmptyString => None
           | String _ _ => Some payload
           end)
  /\ captureImage_of (Some header) = None.
Proof.
  intros Hh. unfold captureImage_of.
  rewrite (split_comma_prefix header payload Hh). cbn [nth_error].
  split; [|split].
  - destruct (split_comma payload) eqn:Hs; [|reflexivity].
    exfalso. exact (split_comma_nonempty _ Hs).
  - intros Hp. rewrite (split_comma_no_comma payload Hp). cbn [nth_error].
    split; [reflexivity|]. destruct payload; reflexivity.
  - rewrite (split_comma_no_comma header Hh). reflexivity.
Qed.

Lemma captured_frame_is_payload_witness :
  captureImage_of (Some "data:image/jpeg;base64,AAAA") = Some "AAAA"
  /\ or_undefined (captureImage_of (Some "data:,")) = None.
Proof.
  split.
  - exact (proj1 (proj1 (proj2 (captured_frame_is_payload
                                  "data:image/jpeg;base64" "AAAA" eq_refl))
                    eq_refl)).
  - exact (proj2 (proj1 (proj2 (captured_frame_is_payload
                                  "data:" EmptyString eq_refl))
                    eq_refl)).
Defined.

(* ------------------------------------------------------------------ *)
(** * The theme and its stored copy *)

Lemma mount_theme_stored b : mount_theme (Some (stored_theme b)) = mkTheme b (Some (stored_theme b)).
Proof. destruct b; reflexivity. Qed.

Lemma toggles_keep_copy n :
  forall st,
    theme_item st = Some (stored_theme (isDarkMode st)) ->
    theme_item (Nat.iter n toggleDarkMode st)
    = Some (stored_theme (isDarkMode (Nat.iter n toggleDarkMode st))).
Proof.
  induction n as [|n IH]; intros st H; [exact H|].
  cbn [Nat.iter]. reflexivity.
Qed.

(** X20.  After start-up and any number of toggles the stored entry is the
    name of the current theme, and starting up again from that entry gives
    the same theme and the same entry back.  A missing entry, or one that
    is not [light], starts in dark mode and is overwritten with [dark]. *)
Theorem theme_survives_reload (item : option string) (n : nat) :
  theme_item (Nat.iter n toggleDarkMode (mount_theme item))
  = Some (stored_theme
            (isDarkMode (Nat.iter n toggleDarkMode (mount_theme item))))
  /\ mount_theme (theme_item (Nat.iter n toggleDarkMode (mount_theme item)))
     = Nat.iter n toggleDarkMode (mount_theme item)
  /\ (item <> Some "light" -> mount_theme item = mkTheme true (Some "dark"))
  /\ (item = Some "light" -> mount_theme item = mkTheme false (Some "light")).
Proof.
  assert (Hmount : theme_item (mount_theme item)
                   = Some (stored_theme (isDarkMode (mount_theme item)))).
  { unfold mount_theme. cbn [theme_item].
    destruct item as [t|]; [|reflexivity].
    destruct (t =? "light")%string; reflexivity. }
  pose proof (toggles_keep_copy n _ Hmount) as Hcopy.
  split; [exact Hcopy|]. split; [|split].
  - rewrite Hcopy, mount_theme_stored.
    destruct (Nat.iter n toggleDarkMode (mount_theme item)) as [b it].
    cbn [isDarkMode theme_item] in *. rewrite Hcopy. reflexivity.
  - intros Hne. unfold mount_theme. cbn [theme_item].
    destruct item as [t|]; [|reflexivity].
    destruct (String.eqb_spec t "light") as [->|_]; [congruence|reflexivity].
  - intros ->. reflexivity.
Qed.

Lemma theme_survives_reload_witness :
  mount_theme (Some "system") = mkTheme true (Some "dark").
Proof.
  apply (proj1 (proj2 (proj2 (theme_survives_reload (Some "system") 0)))).
  discriminate.
Defined.
